(** * leaflet-challenge: the earthquake map script, [static/js/logic.js]

    A shallow embedding of the script and the properties of its visual
    encoding: depth extraction, marker radius, marker options, the legend
    and the render pipeline [init].

    Numbers.  The feed is JSON, so every number the script receives is a
    finite binary64 value, hence a rational.  The script only compares
    numbers ([>], [<]) and multiplies one by 4; comparisons are exact and
    so is a multiplication by 4 short of overflow, so numbers are embedded
    as [Q] and the decimal literals 0.01, 0.5 and 0.8 as the rationals they
    denote.  Equality of computed numbers is [Qeq] ([==]).  What chroma.js
    computes is not bound by the feed and may be [NaN] or infinite: the
    boundaries are [JsNumber]s.

    Page.  [L.map("map")] needs the element with id "map" to exist and to
    hold no map yet; what that element holds is part of the global state.

    Libraries.  Everything the script obtains from d3, chroma.js, the
    [Intl] formatters and the console is an external call: programs are
    trees of such calls ([Prog]), run against a host ([run]). *)

From Stdlib Require Import QArith Qminmax Lqa ZArith String Ascii DecimalString.
From stdpp Require Import base list.

Local Open Scope Q_scope.

(** ** Numbers *)

Module Num.

(** [x < y] on numbers, as a boolean. *)
Definition ltb (x y : Q) : bool :=
  match x ?= y with
  | Lt => true
  | _ => false
  end.

End Num.

(** [Number.MAX_VALUE], the largest finite binary64 value. *)
Definition MAX_VALUE : Q := inject_Z ((2 ^ 53 - 1) * 2 ^ 971).

(** A number the script is handed by a library: finite, [NaN] or one of
    the two infinities. *)
Inductive JsNumber : Type :=
| Finite (q : Q)
| NaN
| PlusInfinity
| MinusInfinity.

(** ** The feed: GeoJSON point features *)

(** [geometry.coordinates] is the array [[lon, lat, depth]]. *)
Record Geometry := { coordinates : list Q }.

(** [properties.{mag, place, time}]; [time] is in epoch milliseconds. *)
Record Properties := { mag : Q; place : string; time : Z }.

Record Feature := { geometry : Geometry; properties : Properties }.

Record FeatureCollection := { features : list Feature }.

(** [feature.geometry.coordinates[2]]: reading an array past its end
    gives [undefined], here [None]. *)
Definition depthOf (element : Feature) : option Q :=
  coordinates (geometry element) !! 2%nat.

(** ** Pure functions of the script *)

(** [value > 0 ? value : 0.01]; [undefined > 0] is false. *)
Definition positiveOr (value : option Q) : Q :=
  match value with
  | Some v => if Num.ltb 0 v then v else 0.01
  | None => 0.01
  end.

Definition getDepths (features : list Feature) : list Q :=
  (fun element => let value := depthOf element in positiveOr value) <$> features.

Definition radialMagnitude (magnitude : Q) : Q :=
  if Num.ltb magnitude 0.5 then 2 else magnitude * 4.

(** ** External calls and programs *)

(** [chroma.scale(colors).domain(domain)]: the scale object only records
    what it was built from; evaluating it is chroma's business. *)
Record Scale := { scaleColors : list string; scaleDomain : list JsNumber }.

(** The options object given to [toLocaleString]. *)
Record NumberFormatOptions :=
  { maximumFractionDigits : nat; minimumFractionDigits : nat }.

(** The options object given to [Intl.DateTimeFormat]. *)
Record DateTimeFormatOptions :=
  { dateStyle : string; timeStyle : string; timeZone : string }.

(** The calls the script makes into its environment, indexed by the type
    of what comes back. *)
Inductive Ext : Type -> Type :=
| d3_json (url : string) : Ext FeatureCollection
| console_log (label : string) (n : nat) : Ext unit
| chroma_limits (data : list Q) (mode : string) (num : Z) : Ext (list JsNumber)
| scale_hex (s : Scale) (v : option Q) : Ext string
| toLocaleString (v : JsNumber) (o : NumberFormatOptions) : Ext string
| number_toString (v : Q) : Ext string
| dateFormat_format (locale : string) (o : DateTimeFormatOptions) (t : Z) : Ext string.

(** A program: it returns, dies of an uncaught exception, or makes an
    external call and goes on with the answer. *)
Inductive Prog (A : Type) : Type :=
| Ret (a : A)
| Throw (e : string)
| Vis {X : Type} (e : Ext X) (k : X -> Prog A).

Arguments Ret {A} a.
Arguments Throw {A} e.
Arguments Vis {A X} e k.

Fixpoint bind {A B : Type} (p : Prog A) (f : A -> Prog B) : Prog B :=
  match p with
  | Ret a => f a
  | Throw e => Throw e
  | Vis e k => Vis e (fun x => bind (k x) f)
  end.

Definition call {X : Type} (e : Ext X) : Prog X := Vis e Ret.

#[global] Instance Prog_ret : MRet Prog := @Ret.
#[global] Instance Prog_bind : MBind Prog := fun A B f p => bind p f.

(** [xs.forEach((value, index) => ...)] collecting what each round pushes,
    [index] counting from [start]. *)
Fixpoint forEachP {A B : Type} (f : A -> nat -> Prog B) (start : nat) (xs : list A)
  : Prog (list B) :=
  match xs with
  | [] => mret []
  | x :: xs' => y ← f x start; ys ← forEachP f (S start) xs'; mret (y :: ys)
  end.

(** A host answers every call, or fails it ([None]: the call throws). *)
Definition Host : Type := forall (X : Type), Ext X -> option X.

(** One call made, with its arguments. *)
Inductive Call : Type :=
| Called {X : Type} (e : Ext X).

Fixpoint run {A : Type} (h : Host) (p : Prog A) : option A :=
  match p with
  | Ret a => Some a
  | Throw _ => None
  | Vis e k =>
      match h _ e with
      | Some x => run h (k x)
      | None => None
      end
  end.

(** The calls a program makes under a host, in order, up to its end or to
    the first failure. *)
Fixpoint trace {A : Type} (h : Host) (p : Prog A) : list Call :=
  match p with
  | Ret _ => []
  | Throw _ => []
  | Vis e k =>
      Called e :: match h _ e with
                  | Some x => trace h (k x)
                  | None => []
                  end
  end.

(** ** Text *)

Local Open Scope string_scope.

(** The double quote, a line feed and a run of [n] blanks, for the
    template literals. *)
Definition dq : string := String (ascii_of_nat 34) EmptyString.
Definition nl : string := String (ascii_of_nat 10) EmptyString.

Fixpoint blanks (n : nat) : string :=
  match n with
  | O => EmptyString
  | S n' => String (ascii_of_nat 32) (blanks n')
  end.

(** [xs.join(sep)] *)
Definition join (sep : string) (xs : list string) : string := String.concat sep xs.

(** ** Module-level variables *)

Definition url : string :=
  "https://earthquake.usgs.gov/earthquakes/feed/v1.0/summary/all_week.geojson".

Definition gradientColors : list string :=
  ["#9AFF9A"; "#5AFF5A"; "#28C428"; "#FF7878"; "#FF3232"; "#FF0000"].

(** What the page element with id "map" is to Leaflet: absent, free, or
    already holding a map. *)
Inductive Container : Type :=
| NotFound
| Empty
| HoldsMap.

(** The global state: [let colorDomain; let chromaScale;], which both
    start [undefined], and the map container of the page. *)
Record Globals :=
  { colorDomain : option (list JsNumber);
    chromaScale : option Scale;
    mapContainer : Container }.

(** A freshly loaded page. *)
Definition undefinedGlobals : Globals :=
  {| colorDomain := None; chromaScale := None; mapContainer := Empty |}.

Definition set_colorDomain (v : list JsNumber) (g : Globals) : Globals :=
  {| colorDomain := Some v; chromaScale := chromaScale g;
     mapContainer := mapContainer g |}.

Definition set_chromaScale (v : Scale) (g : Globals) : Globals :=
  {| colorDomain := colorDomain g; chromaScale := Some v;
     mapContainer := mapContainer g |}.

Definition set_mapContainer (v : Container) (g : Globals) : Globals :=
  {| colorDomain := colorDomain g; chromaScale := chromaScale g;
     mapContainer := v |}.

(** ** Markers *)

Record LatLng := { lat : Q; lng : Q; alt : option Q }.

(** What [L.circleMarker(latLong, options)] is built from, and the popup
    bound to it afterwards. *)
Record CircleMarker :=
  { latLong : LatLng;
    color : string;
    fillColor : string;
    fillOpacity : Q;
    stroke : bool;
    radius : Q;
    popup : option string }.

(** [chromaScale(depth).hex()]; calling [undefined] is a TypeError. *)
Definition colorDepth (g : Globals) (depth : option Q) : Prog string :=
  match chromaScale g with
  | Some s => call (scale_hex s depth)
  | None => Throw "TypeError: chromaScale is not a function"
  end.

Definition popupDateFormat : DateTimeFormatOptions :=
  {| dateStyle := "medium"; timeStyle := "short"; timeZone := "UTC" |}.

Definition bindPopup (content : string) (layer : CircleMarker) : CircleMarker :=
  {| latLong := latLong layer; color := color layer; fillColor := fillColor layer;
     fillOpacity := fillOpacity layer; stroke := stroke layer; radius := radius layer;
     popup := Some content |}.

Definition _addPopup (feature : Feature) (layer : CircleMarker) : Prog CircleMarker :=
  magText ← call (number_toString (mag (properties feature)));
  dateText ← call (dateFormat_format "en-us" popupDateFormat (time (properties feature)));
  mret (bindPopup (place (properties feature) ++ "<hr>" ++ nl
                   ++ blanks 20 ++ "Magnitude: " ++ magText ++ "<hr>" ++ nl
                   ++ blanks 20 ++ dateText ++ " UTC") layer).

Definition _pointToLayer (g : Globals) (feature : Feature) (latLong : LatLng)
  : Prog CircleMarker :=
  c ← colorDepth g (depthOf feature);
  fc ← colorDepth g (depthOf feature);
  mret {| latLong := latLong;
          color := c;
          fillColor := fc;
          fillOpacity := 0.8;
          stroke := false;
          radius := radialMagnitude (mag (properties feature));
          popup := None |}.

(** Leaflet's [coordsToLatLng]: [[lon, lat, alt]] to a [LatLng]; it
    throws when latitude or longitude is not a number. *)
Definition coordsToLatLng (coords : list Q) : Prog LatLng :=
  match coords !! 1%nat, coords !! 0%nat with
  | Some la, Some lo => mret {| lat := la; lng := lo; alt := coords !! 2%nat |}
  | _, _ => Throw "Invalid LatLng object"
  end.

(** [L.geoJSON(data, {onEachFeature, pointToLayer})] over point features:
    each feature, in order, becomes [pointToLayer(feature, latlng)], is
    handed to [onEachFeature] and joins the layer group. *)
Definition createEarthquakeFeatures (g : Globals) (earthquakeData : list Feature)
  : Prog (list CircleMarker) :=
  mapM (fun feature =>
          latlng ← coordsToLatLng (coordinates (geometry feature));
          layer ← _pointToLayer g feature latlng;
          _addPopup feature layer)
       earthquakeData.

(** ** Legend *)

Record Div := { className : string; innerHTML : string }.

(** A Leaflet control: where it sits and the [onAdd] callback Leaflet
    calls when the control is added to a map.  The callback is a closure
    over the module-level variables and reads them when it is called. *)
Record Control := { position : string; onAdd : Globals -> Prog Div }.

Definition twoFractionDigits : NumberFormatOptions :=
  {| maximumFractionDigits := 2; minimumFractionDigits := 2 |}.

(** The body of [colorDomain.forEach((value, index) => ...)]: the item
    pushed onto [htmlLI]. *)
Definition legendItem (value : JsNumber) (index : nat) : Prog string :=
  formattedValue ← (if Nat.eqb index 0 then mret "0.01 +"
                    else call (toLocaleString value twoFractionDigits));
  mret ("<li>" ++ formattedValue ++ "</li>").

Definition legendTitle : string :=
  "<h3 class=" ++ dq ++ "legend_title" ++ dq ++ ">Depth (km)</h3>".

Definition legendHTML (htmlLI : list string) : string :=
  legendTitle ++ nl
  ++ blanks 24 ++ "<div class=" ++ dq ++ "data_container" ++ dq ++ ">" ++ nl
  ++ blanks 28 ++ "<div class=" ++ dq ++ "gradient" ++ dq
               ++ " style=" ++ dq ++ "background: linear-gradient("
               ++ join ", " gradientColors ++ ")" ++ dq ++ "></div>" ++ nl
  ++ blanks 28 ++ "<div class=" ++ dq ++ "gradient_values" ++ dq ++ ">" ++ nl
  ++ blanks 32 ++ "<ul>" ++ nl
  ++ blanks 36 ++ join "" htmlLI ++ nl
  ++ blanks 32 ++ "</ul>" ++ nl
  ++ blanks 28 ++ "</div>" ++ nl
  ++ blanks 24 ++ "</div>".

Definition createLegend : Control :=
  {| position := "bottomright";
     onAdd := fun g =>
       match colorDomain g with
       | None => Throw "TypeError: colorDomain is undefined"
       | Some domain =>
           htmlLI ← forEachP legendItem 0 domain;
           mret {| className := "legend"; innerHTML := legendHTML htmlLI |}
       end |}.

(** ** Map *)

Record TileLayer :=
  { urlTemplate : string; attribution : string; maxZoom : option Z }.

Record Polyline := { latlngs : list (Q * Q); lineColor : string }.

Record LayersControl :=
  { baseMaps : list (string * TileLayer);
    overlayMaps : list (string * list CircleMarker);
    collapsed : bool }.

Record LeafletMap :=
  { container : string;
    center : Q * Q;
    zoom : Z;
    layers : TileLayer * list CircleMarker;
    polylines : list Polyline;
    layersControl : LayersControl;
    legend : Div }.

Definition esriGray : TileLayer :=
  {| urlTemplate := "https://server.arcgisonline.com/ArcGIS/rest/services/Canvas/World_Light_Gray_Base/MapServer/tile/{z}/{y}/{x}";
     attribution := "Tiles &copy; Esri &mdash; Esri, DeLorme, NAVTEQ";
     maxZoom := Some 16%Z |}.

Definition street : TileLayer :=
  {| urlTemplate := "https://{s}.tile.openstreetmap.org/{z}/{x}/{y}.png";
     attribution := "&copy; <a href=" ++ dq ++ "https://www.openstreetmap.org/copyright"
                    ++ dq ++ ">OpenStreetMap</a> contributors";
     maxZoom := None |}.

Definition USGS_USImagery : TileLayer :=
  {| urlTemplate := "https://basemap.nationalmap.gov/arcgis/rest/services/USGSImageryOnly/MapServer/tile/{z}/{y}/{x}";
     attribution := "Tiles courtesy of the <a href=" ++ dq ++ "https://usgs.gov/" ++ dq
                    ++ ">U.S. Geological Survey</a>";
     maxZoom := Some 16%Z |}.

(** [L.map("map", ...)] throws when the page has no element with id "map"
    and when that element already holds a map; otherwise the element holds
    the new map from then on.  The legend is added last. *)
Definition createMap (g : Globals) (earthquakes : list CircleMarker)
  : Prog (LeafletMap * Globals) :=
  g ← match mapContainer g with
      | NotFound => Throw "Map container not found."
      | HoldsMap => Throw "Map container is already initialized."
      | Empty => mret (set_mapContainer HoldsMap g)
      end;
  div ← onAdd createLegend g;
  mret ({| container := "map";
          center := (37.0902, -95.7129)%Q;
          zoom := 4%Z;
          layers := (esriGray, earthquakes);
          polylines := [ {| latlngs := [(-85, 180); (85, 180)]%Q; lineColor := "#ddd" |};
                         {| latlngs := [(-85, -180); (85, -180)]%Q; lineColor := "#ddd" |} ];
          layersControl :=
            {| baseMaps := [("Base", esriGray); ("Streets", street);
                            ("Satellite", USGS_USImagery)];
               overlayMaps := [("Earthquakes", earthquakes)];
               collapsed := false |};
          legend := div |}, g).

(** ** The pipeline *)

(** [init] and [createMap] return nothing in the script; here they hand
    back the map they assemble and the global state as they leave it. *)
Definition init (g : Globals) : Prog (LeafletMap * Globals) :=
  earthquakeData ← call (d3_json url);
  let allDepths := getDepths (features earthquakeData) in
  _ ← call (console_log "Total Earthquakes" (length allDepths));
  limits ← call (chroma_limits allDepths "l" (Z.of_nat (length gradientColors) - 1));
  let g := set_colorDomain limits g in
  let g := set_chromaScale {| scaleColors := gradientColors; scaleDomain := limits |} g in
  earthquakeFeatures ← createEarthquakeFeatures g (features earthquakeData);
  createMap g earthquakeFeatures.

(** The scale [init] builds from the boundaries. *)
Definition globalsAfter_scale (limits : list JsNumber) : Scale :=
  {| scaleColors := gradientColors; scaleDomain := limits |}.

(** ** Reading a trace *)

(** The arguments of the [chroma.limits] calls in a trace. *)
Definition limitsCalls (tr : list Call) : list (list Q * string * Z) :=
  flat_map (fun c =>
              match c with
              | Called e =>
                  match e with
                  | chroma_limits data mode num => [(data, mode, num)]
                  | _ => []
                  end
              end) tr.

(** The values handed to the colour scale in a trace. *)
Definition scaleArgs (tr : list Call) : list (option Q) :=
  flat_map (fun c =>
              match c with
              | Called e =>
                  match e with
                  | scale_hex _ v => [v]
                  | _ => []
                  end
              end) tr.

(** The requests made to [toLocaleString] in a trace. *)
Definition formatCalls (tr : list Call) : list (JsNumber * NumberFormatOptions) :=
  flat_map (fun c =>
              match c with
              | Called e =>
                  match e with
                  | toLocaleString v o => [(v, o)]
                  | _ => []
                  end
              end) tr.

(** A program that never calls [chroma.limits]. *)
Inductive Quiet {A : Type} : Prog A -> Prop :=
| Quiet_Ret (a : A) : Quiet (Ret a)
| Quiet_Throw (e : string) : Quiet (Throw e)
| Quiet_Vis {X : Type} (e : Ext X) (k : X -> Prog A) :
    limitsCalls [Called e] = [] -> (forall x : X, Quiet (k x)) -> Quiet (Vis e k).

(** The global state inside [init] once [chroma.limits] has answered
    [limits] and both variables are set, the map container being [c]. *)
Definition globalsWith (limits : list JsNumber) (c : Container) : Globals :=
  {| colorDomain := Some limits;
     chromaScale := Some {| scaleColors := gradientColors; scaleDomain := limits |};
     mapContainer := c |}.

(** What [init] leaves behind once [chroma.limits] has answered [limits]:
    both variables set, and a map in the container. *)
Definition globalsAfter (limits : list JsNumber) : Globals :=
  {| colorDomain := Some limits;
     chromaScale := Some {| scaleColors := gradientColors; scaleDomain := limits |};
     mapContainer := HoldsMap |}.

(** ** A host to run the script against

    It serves a given feed and answers [chroma.limits] with given
    boundaries; the scale picks the palette colour of the last boundary at
    or below the value, finite numbers print with two decimals and every
    date prints the same. *)

Module Sample.

Definition digits (n : Z) : string :=
  NilZero.string_of_uint (N.to_uint (Z.to_N n)).

(** Two decimals, halves rounded away from zero. *)
Definition fixed2 (q : Q) : string :=
  let den := Zpos (Qden q) in
  let r := ((2 * Z.abs (Qnum q) * 100 + den) / (2 * den))%Z in
  (if (Qnum q <? 0)%Z then "-" else "")
  ++ digits (r / 100) ++ "."
  ++ digits ((r mod 100) / 10) ++ digits (r mod 10).

(** How a boundary prints: a finite one with two decimals. *)
Definition format (v : JsNumber) : string :=
  match v with
  | Finite q => fixed2 q
  | NaN => "NaN"
  | PlusInfinity => "Infinity"
  | MinusInfinity => "-Infinity"
  end.

(** [v < b] for a boundary [b]; nothing is below [NaN]. *)
Definition below (v : Q) (b : JsNumber) : bool :=
  match b with
  | Finite q => Num.ltb v q
  | NaN => false
  | PlusInfinity => true
  | MinusInfinity => false
  end.

(** The colour of the last boundary that is not above [v]; the first
    colour when there is none. *)
Fixpoint pick (colors : list string) (domain : list JsNumber) (v : Q) (current : string)
  : string :=
  match colors, domain with
  | c :: colors', b :: domain' =>
      if below v b then current else pick colors' domain' v c
  | _, _ => current
  end.

Definition hex (s : Scale) (v : option Q) : string :=
  match v with
  | Some q => pick (scaleColors s) (scaleDomain s) q (List.hd "#ccc" (scaleColors s))
  | None => "#ccc"
  end.

Definition host (feed : FeatureCollection) (limits : list JsNumber) : Host :=
  fun X e =>
    match e in Ext X return option X with
    | d3_json _ => Some feed
    | console_log _ _ => Some tt
    | chroma_limits _ _ _ => Some limits
    | scale_hex s v => Some (hex s v)
    | toLocaleString v _ => Some (format v)
    | number_toString v => Some (fixed2 v)
    | dateFormat_format _ _ _ => Some "Jan 1, 2024, 12:00 AM"
    end.

Definition feature (lon la depth m : Q) (where_ : string) (t : Z) : Feature :=
  {| geometry := {| coordinates := [lon; la; depth] |};
     properties := {| mag := m; place := where_; time := t |} |}.

(** A deep strong event, a negative depth, and a depth between 0 and 0.01. *)
Definition deep : Feature := feature (-122.5) 38.1 100 6 "10km N of Somewhere" 1704067200000.
Definition aboveGround : Feature := feature (-155.2) 19.4 (-5) 0.3 "Volcano" 1704067260000.
Definition shallow : Feature := feature (-117.1) 33.9 0.005 1.2 "Quarry" 1704067320000.

Definition feed : FeatureCollection := {| features := [deep; aboveGround; shallow] |}.
Definition emptyFeed : FeatureCollection := {| features := [] |}.

Definition limits : list JsNumber :=
  [Finite 0.005; Finite 0.04; Finite 0.3; Finite 2; Finite 14; Finite 100].

(** Six boundaries of which the inner four are not numbers, as a
    logarithmic partition computes them when it is given no data: the
    minimum starts at the largest number, the maximum at its opposite. *)
Definition noData : list JsNumber :=
  [Finite MAX_VALUE; NaN; NaN; NaN; NaN; Finite (- MAX_VALUE)].

End Sample.

(** ** Hosts that fail *)

Module Outage.

(** The fetch is rejected. *)
Definition offline : Host := fun X e => None.

(** The feed arrives and the console works; every library call throws. *)
Definition librariesDown (feed : FeatureCollection) : Host :=
  fun X e =>
    match e in Ext X return option X with
    | d3_json _ => Some feed
    | console_log _ _ => Some tt
    | _ => None
    end.

End Outage.

(** * Properties *)

Local Open Scope Q_scope.

(** ** Comparisons *)

Module NumFacts.

Lemma ltb_lt (x y : Q) : Num.ltb x y = true <-> x < y.
Proof.
  unfold Num.ltb. rewrite Qlt_alt. destruct (x ?= y); split; congruence.
Qed.

Lemma ltb_ge (x y : Q) : Num.ltb x y = false <-> y <= x.
Proof.
  destruct (Num.ltb x y) eqn:E; split; intros H; try done.
  - apply ltb_lt in E. exfalso. apply (Qlt_not_le _ _ E H).
  - apply Qnot_lt_le. intros L. apply ltb_lt in L. congruence.
Qed.

End NumFacts.

(** ** Depth extraction *)

Lemma positiveOr_pos (d : Q) : 0 < d -> positiveOr (Some d) = d.
Proof.
  intros H. unfold positiveOr. apply NumFacts.ltb_lt in H. by rewrite H.
Qed.

Lemma positiveOr_floor (d : Q) : d <= 0 -> positiveOr (Some d) = 0.01.
Proof.
  intros H. unfold positiveOr. apply NumFacts.ltb_ge in H. by rewrite H.
Qed.

Lemma positiveOr_positive (value : option Q) : 0 < positiveOr value.
Proof.
  destruct value as [d|]; simpl; [|reflexivity].
  destruct (Num.ltb 0 d) eqn:E; [by apply NumFacts.ltb_lt|reflexivity].
Qed.

Lemma getDepths_lookup (fs : list Feature) (i : nat) :
  getDepths fs !! i = (fun f => positiveOr (depthOf f)) <$> fs !! i.
Proof. unfold getDepths. apply list_lookup_fmap. Qed.

Lemma getDepths_length (fs : list Feature) : length (getDepths fs) = length fs.
Proof. unfold getDepths. apply length_fmap. Qed.

(** A feature whose coordinates stop short of a depth counts as 0.01. *)
Lemma getDepths_missing (fs : list Feature) (i : nat) (f : Feature) :
  fs !! i = Some f -> depthOf f = None -> getDepths fs !! i = Some 0.01.
Proof.
  intros Hf Hd. rewrite getDepths_lookup, Hf. simpl. by rewrite Hd.
Qed.

(** C1: [getDepths] returns one depth per feature, in the order of the
    features; the depth at a position is the feature's own depth [d] when
    [d > 0], and 0.01 when [d] is zero or negative. *)
Theorem getDepths_spec (fs : list Feature) :
  length (getDepths fs) = length fs /\
  forall (i : nat) (f : Feature) (d : Q),
    fs !! i = Some f -> depthOf f = Some d ->
    (0 < d -> getDepths fs !! i = Some d) /\
    (d <= 0 -> getDepths fs !! i = Some 0.01).
Proof.
  split; [apply getDepths_length|].
  intros i f d Hf Hd. rewrite getDepths_lookup, Hf. simpl. rewrite Hd.
  split; intros H.
  - by rewrite positiveOr_pos.
  - by rewrite positiveOr_floor.
Qed.

Lemma getDepths_spec_witness :
  getDepths (features Sample.feed) !! 0%nat = Some 100 /\
  getDepths (features Sample.feed) !! 1%nat = Some 0.01.
Proof.
  split.
  - apply (proj2 (getDepths_spec (features Sample.feed)) 0%nat Sample.deep 100);
      reflexivity.
  - apply (proj2 (getDepths_spec (features Sample.feed)) 1%nat Sample.aboveGround (-5));
      [reflexivity | reflexivity | discriminate].
Defined.

(** C2, as stated, fails: a depth strictly between 0 and 0.01 is positive,
    so it is kept, and it is neither [max d 0.01] nor at least 0.01. *)
Lemma getDepths_not_max :
  depthOf Sample.shallow = Some 0.005 /\
  getDepths [Sample.shallow] = [0.005] /\
  ~ 0.005 == Qmax 0.005 0.01 /\
  ~ 0.01 <= 0.005.
Proof.
  repeat split; try reflexivity; intros H; vm_compute in H; congruence.
Qed.

(** C2, amended: the depth at a position is the feature's depth [d] when
    [d > 0] and 0.01 otherwise; it is always positive, and it is
    [max d 0.01] whenever [d <= 0] or [d >= 0.01]. *)
Theorem getDepths_floor (fs : list Feature) (i : nat) (f : Feature) (d : Q) :
  fs !! i = Some f -> depthOf f = Some d ->
  exists e : Q,
    getDepths fs !! i = Some e /\
    0 < e /\
    (0 < d -> e = d) /\
    (d <= 0 -> e = 0.01) /\
    (d <= 0 \/ 0.01 <= d -> e == Qmax d 0.01).
Proof.
  intros Hf Hd. rewrite getDepths_lookup, Hf. simpl. rewrite Hd.
  exists (positiveOr (Some d)).
  split; [reflexivity|]. split; [exact (positiveOr_positive (Some d))|].
  split; [exact (positiveOr_pos d)|]. split; [exact (positiveOr_floor d)|].
  intros [H|H].
  - rewrite positiveOr_floor by done. symmetry. apply Q.max_r. lra.
  - rewrite positiveOr_pos by lra. symmetry. by apply Q.max_l.
Qed.

Lemma getDepths_floor_witness :
  exists e : Q,
    getDepths (features Sample.feed) !! 1%nat = Some e /\
    0 < e /\
    (0 < -5 -> e = -5) /\
    (-5 <= 0 -> e = 0.01) /\
    (-5 <= 0 \/ 0.01 <= -5 -> e == Qmax (-5) 0.01).
Proof.
  apply (getDepths_floor (features Sample.feed) 1%nat Sample.aboveGround (-5));
    reflexivity.
Defined.

(** ** Marker radius *)

Lemma radialMagnitude_small (m : Q) : m < 0.5 -> radialMagnitude m = 2.
Proof.
  intros H. unfold radialMagnitude. apply NumFacts.ltb_lt in H. by rewrite H.
Qed.

Lemma radialMagnitude_linear (m : Q) : 0.5 <= m -> radialMagnitude m = m * 4.
Proof.
  intros H. unfold radialMagnitude. apply NumFacts.ltb_ge in H. by rewrite H.
Qed.

(** C3: the radius is 2 for a magnitude below 0.5 and four times the
    magnitude from 0.5 on; at 0.5 itself it is 2. *)
Theorem radialMagnitude_spec (m : Q) :
  (m < 0.5 -> radialMagnitude m = 2) /\
  (0.5 <= m -> radialMagnitude m == 4 * m) /\
  radialMagnitude 0.5 == 2.
Proof.
  split; [apply radialMagnitude_small|]. split.
  - intros H. rewrite radialMagnitude_linear by done. ring.
  - reflexivity.
Qed.

Lemma radialMagnitude_spec_witness :
  radialMagnitude 0.3 = 2 /\ radialMagnitude 6 == 4 * 6.
Proof.
  split.
  - apply (proj1 (radialMagnitude_spec 0.3)). reflexivity.
  - apply (proj1 (proj2 (radialMagnitude_spec 6))). discriminate.
Defined.

(** C9: the radius is never below 2, negative magnitudes included, and it
    does not decrease when the magnitude grows. *)
Theorem radialMagnitude_monotone :
  (forall m : Q, 2 <= radialMagnitude m) /\
  (forall m1 m2 : Q, m1 <= m2 -> radialMagnitude m1 <= radialMagnitude m2).
Proof.
  assert (Hlow : forall m : Q, 2 <= radialMagnitude m).
  { intros m. destruct (Qlt_le_dec m 0.5) as [H|H].
    - rewrite radialMagnitude_small by done. lra.
    - rewrite radialMagnitude_linear by done. lra. }
  split; [exact Hlow|].
  intros m1 m2 H. destruct (Qlt_le_dec m1 0.5) as [H1|H1].
  - rewrite (radialMagnitude_small m1) by done. apply Hlow.
  - rewrite (radialMagnitude_linear m1) by done.
    rewrite (radialMagnitude_linear m2) by lra. lra.
Qed.

Lemma radialMagnitude_monotone_witness :
  radialMagnitude (-1) <= radialMagnitude 6.
Proof.
  apply (proj2 radialMagnitude_monotone (-1) 6). discriminate.
Defined.

(** A single feature of depth -5 and magnitude 0.3: depth 0.01, radius 2. *)
Example scenario_negative_depth :
  getDepths [Sample.aboveGround] = [0.01] /\
  radialMagnitude (mag (properties Sample.aboveGround)) = 2.
Proof. split; reflexivity. Qed.

(** Magnitude 6: radius 24. *)
Example scenario_magnitude_six : radialMagnitude 6 == 24.
Proof. reflexivity. Qed.

(** ** Running programs *)

Section Running.

Context (h : Host).

Lemma run_bind {A B : Type} (p : Prog A) (f : A -> Prog B) :
  run h (p ≫= f) = run h p ≫= (fun a => run h (f a)).
Proof.
  induction p as [a|e|X e k IH]; simpl; try reflexivity.
  destruct (h X e) as [x|]; [apply IH|reflexivity].
Qed.

Lemma trace_bind {A B : Type} (p : Prog A) (f : A -> Prog B) :
  trace h (p ≫= f)
  = (trace h p ++ match run h p with
                  | Some a => trace h (f a)
                  | None => []
                  end)%list.
Proof.
  induction p as [a|e|X e k IH]; simpl; try reflexivity.
  f_equal. destruct (h X e) as [x|]; [apply IH|reflexivity].
Qed.

Lemma run_call {X : Type} (e : Ext X) : run h (call e) = h X e.
Proof. simpl. by destruct (h X e). Qed.

Lemma trace_call {X : Type} (e : Ext X) : trace h (call e) = [Called e].
Proof. simpl. by destruct (h X e). Qed.

Lemma limitsCalls_app (tr1 tr2 : list Call) :
  limitsCalls (tr1 ++ tr2) = (limitsCalls tr1 ++ limitsCalls tr2)%list.
Proof. apply flat_map_app. Qed.

Lemma Quiet_trace {A : Type} (p : Prog A) : Quiet p -> limitsCalls (trace h p) = [].
Proof.
  induction 1 as [a|e|X e k He _ IH]; [reflexivity|reflexivity|].
  cbn [trace]. rewrite (limitsCalls_app [Called e] _ : limitsCalls (Called e :: _) = _), He.
  destruct (h X e) as [x|]; [apply IH|reflexivity].
Qed.

Lemma Quiet_bind {A B : Type} (p : Prog A) (f : A -> Prog B) :
  Quiet p -> (forall a : A, Quiet (f a)) -> Quiet (p ≫= f).
Proof.
  intros Hp Hf. induction Hp as [a|e|X e k He _ IH]; simpl.
  - apply Hf.
  - constructor.
  - by constructor.
Qed.

Lemma Quiet_mapM {A B : Type} (f : A -> Prog B) (xs : list A) :
  (forall x : A, Quiet (f x)) -> Quiet (mapM f xs).
Proof.
  intros Hf. induction xs as [|x xs IH]; [constructor|].
  cbn [mapM]. apply Quiet_bind; [apply Hf|]. intros y.
  apply Quiet_bind; [apply IH|]. intros ys. constructor.
Qed.

Lemma Quiet_forEachP {A B : Type} (f : A -> nat -> Prog B) (start : nat) (xs : list A) :
  (forall (x : A) (i : nat), Quiet (f x i)) -> Quiet (forEachP f start xs).
Proof.
  intros Hf. revert start. induction xs as [|x xs IH]; intros start; [constructor|].
  cbn [forEachP]. apply Quiet_bind; [apply Hf|]. intros y.
  apply Quiet_bind; [apply IH|]. intros ys. constructor.
Qed.

End Running.

(** ** Markers *)

Section Markers.

Context (h : Host) (g : Globals) (s : Scale).
Hypothesis scale_set : chromaScale g = Some s.

Lemma run_colorDepth (depth : option Q) :
  run h (colorDepth g depth) = h string (scale_hex s depth).
Proof. unfold colorDepth. rewrite scale_set. apply run_call. Qed.

Lemma trace_colorDepth (depth : option Q) :
  trace h (colorDepth g depth) = [Called (scale_hex s depth)].
Proof. unfold colorDepth. rewrite scale_set. apply trace_call. Qed.

Lemma run_pointToLayer (feature : Feature) (ll : LatLng) (c : string) :
  h string (scale_hex s (depthOf feature)) = Some c ->
  run h (_pointToLayer g feature ll)
  = Some {| latLong := ll; color := c; fillColor := c; fillOpacity := 0.8;
            stroke := false; radius := radialMagnitude (mag (properties feature));
            popup := None |}.
Proof.
  intros Hc. unfold _pointToLayer.
  rewrite run_bind, run_colorDepth, Hc. simpl.
  rewrite run_bind, run_colorDepth, Hc. reflexivity.
Qed.

Lemma scaleArgs_pointToLayer (feature : Feature) (ll : LatLng) :
  scaleArgs (trace h (_pointToLayer g feature ll))
  = match h string (scale_hex s (depthOf feature)) with
    | Some _ => [depthOf feature; depthOf feature]
    | None => [depthOf feature]
    end.
Proof.
  unfold _pointToLayer.
  rewrite trace_bind, trace_colorDepth, run_colorDepth.
  destruct (h string (scale_hex s (depthOf feature))) as [c|] eqn:Hc; [|reflexivity].
  rewrite trace_bind, trace_colorDepth, run_colorDepth, Hc. reflexivity.
Qed.

End Markers.

(** C6: the marker [_pointToLayer] builds for a feature has stroke colour
    and fill colour both equal to what the colour scale in force answers
    for the feature's depth, no stroke outline, fill opacity 0.8 and the
    radius [radialMagnitude] gives for the feature's magnitude. *)
Theorem pointToLayer_marker (h : Host) (g : Globals) (s : Scale)
    (feature : Feature) (ll : LatLng) (c : string) :
  chromaScale g = Some s ->
  h string (scale_hex s (depthOf feature)) = Some c ->
  exists m : CircleMarker,
    run h (_pointToLayer g feature ll) = Some m /\
    color m = c /\
    fillColor m = c /\
    stroke m = false /\
    fillOpacity m == 0.8 /\
    radius m = radialMagnitude (mag (properties feature)) /\
    latLong m = ll.
Proof.
  intros Hs Hc. eexists. split; [by apply (run_pointToLayer h g s)|].
  simpl. repeat split; reflexivity.
Qed.

Lemma pointToLayer_marker_witness :
  exists m : CircleMarker,
    run (Sample.host Sample.feed Sample.limits)
        (_pointToLayer
           {| colorDomain := Some Sample.limits;
              chromaScale := Some {| scaleColors := gradientColors;
                                     scaleDomain := Sample.limits |}; mapContainer := HoldsMap |}
           Sample.deep {| lat := 38.1; lng := -122.5; alt := Some 100 |}) = Some m /\
    color m = "#FF0000"%string /\
    fillColor m = "#FF0000"%string /\
    stroke m = false /\
    fillOpacity m == 0.8 /\
    radius m = radialMagnitude (mag (properties Sample.deep)) /\
    latLong m = {| lat := 38.1; lng := -122.5; alt := Some 100 |}.
Proof.
  apply (pointToLayer_marker (Sample.host Sample.feed Sample.limits) _
           {| scaleColors := gradientColors; scaleDomain := Sample.limits |});
    reflexivity.
Defined.




(** ** Legend *)

Section Legend.

Context (h : Host) (fmt : JsNumber -> string).
Hypothesis formats :
  forall v : JsNumber, h string (toLocaleString v twoFractionDigits) = Some (fmt v).

Lemma run_legendItem_first (value : JsNumber) :
  run h (legendItem value 0) = Some "<li>0.01 +</li>"%string.
Proof. reflexivity. Qed.

Lemma run_legendItem_next (value : JsNumber) (index : nat) :
  run h (legendItem value (S index)) = Some ("<li>" ++ fmt value ++ "</li>")%string.
Proof.
  unfold legendItem. rewrite run_bind. simpl Nat.eqb. cbv iota.
  rewrite run_call, formats. reflexivity.
Qed.

Lemma run_legendItems_next (domain : list JsNumber) (index : nat) :
  run h (forEachP legendItem (S index) domain)
  = Some (List.map (fun v => "<li>" ++ fmt v ++ "</li>")%string domain).
Proof.
  revert index. induction domain as [|v domain IH]; intros index; [reflexivity|].
  cbn [forEachP]. rewrite run_bind, run_legendItem_next. simpl.
  rewrite run_bind, IH. reflexivity.
Qed.

Lemma run_legendItems (domain : list JsNumber) :
  run h (forEachP legendItem 0 domain)
  = Some match domain with
         | [] => []
         | _ :: others =>
             "<li>0.01 +</li>"%string
             :: List.map (fun v => "<li>" ++ fmt v ++ "</li>")%string others
         end.
Proof.
  destruct domain as [|v others]; [reflexivity|].
  cbn [forEachP]. rewrite run_bind, run_legendItem_first. simpl.
  rewrite run_bind, run_legendItems_next. reflexivity.
Qed.

Lemma run_onAdd (g : Globals) (domain : list JsNumber) :
  colorDomain g = Some domain ->
  run h (onAdd createLegend g)
  = Some {| className := "legend";
            innerHTML :=
              legendHTML match domain with
                         | [] => []
                         | _ :: others =>
                             "<li>0.01 +</li>"%string
                             :: List.map (fun v => "<li>" ++ fmt v ++ "</li>")%string others
                         end |}.
Proof.
  intros Hd. simpl. rewrite Hd, run_bind, run_legendItems. reflexivity.
Qed.

End Legend.

(** The legend's markup, written out. *)
Lemma legendHTML_text (htmlLI : list string) :
  legendHTML htmlLI
  = ("<h3 class=" ++ dq ++ "legend_title" ++ dq ++ ">Depth (km)</h3>" ++ nl
       ++ blanks 24 ++ "<div class=" ++ dq ++ "data_container" ++ dq ++ ">" ++ nl
       ++ blanks 28 ++ "<div class=" ++ dq ++ "gradient" ++ dq ++ " style=" ++ dq
       ++ "background: linear-gradient(#9AFF9A, #5AFF5A, #28C428, #FF7878, #FF3232, #FF0000)"
       ++ dq ++ "></div>" ++ nl
       ++ blanks 28 ++ "<div class=" ++ dq ++ "gradient_values" ++ dq ++ ">" ++ nl
       ++ blanks 32 ++ "<ul>" ++ nl
       ++ blanks 36
       ++ String.concat EmptyString
            htmlLI
       ++ nl
       ++ blanks 32 ++ "</ul>" ++ nl
       ++ blanks 28 ++ "</div>" ++ nl
       ++ blanks 24 ++ "</div>")%string.
Proof. reflexivity. Qed.



(** ** The pipeline *)

Section Pipeline.

Context (h : Host).

Lemma run_createEarthquakeFeatures_nil (g : Globals) :
  run h (createEarthquakeFeatures g []) = Some [].
Proof. reflexivity. Qed.

Lemma Quiet_colorDepth (g : Globals) (depth : option Q) : Quiet (colorDepth g depth).
Proof.
  unfold colorDepth. destruct (chromaScale g); repeat constructor.
Qed.

Lemma Quiet_createEarthquakeFeatures (g : Globals) (fs : list Feature) :
  Quiet (createEarthquakeFeatures g fs).
Proof.
  apply Quiet_mapM. intros feature. apply Quiet_bind.
  - unfold coordsToLatLng.
    destruct (coordinates (geometry feature) !! 1%nat),
             (coordinates (geometry feature) !! 0%nat); constructor.
  - intros latlng. apply Quiet_bind.
    + unfold _pointToLayer. apply Quiet_bind; [apply Quiet_colorDepth|]. intros c.
      apply Quiet_bind; [apply Quiet_colorDepth|]. intros fc. constructor.
    + intros layer. repeat constructor.
Qed.

Lemma Quiet_onAdd (g : Globals) : Quiet (onAdd createLegend g).
Proof.
  simpl onAdd. destruct (colorDomain g) as [domain|]; [|constructor].
  apply Quiet_bind; [|intros items; constructor].
  apply Quiet_forEachP. intros v [|i]; repeat constructor.
Qed.

Lemma Quiet_createMap (g : Globals) (earthquakes : list CircleMarker) :
  Quiet (createMap g earthquakes).
Proof.
  unfold createMap. apply Quiet_bind.
  - destruct (mapContainer g); constructor.
  - intros g'. apply Quiet_bind; [apply Quiet_onAdd|intros div; constructor].
Qed.




(** [createMap] on a free container, for boundaries [domain] the host
    formats with [fmt]. *)
Lemma run_createMap (g : Globals) (domain : list JsNumber) (fmt : JsNumber -> string)
    (earthquakes : list CircleMarker) :
  (forall v : JsNumber, h string (toLocaleString v twoFractionDigits) = Some (fmt v)) ->
  mapContainer g = Empty ->
  colorDomain g = Some domain ->
  exists map : LeafletMap,
    run h (createMap g earthquakes) = Some (map, set_mapContainer HoldsMap g) /\
    layers map = (esriGray, earthquakes) /\
    overlayMaps (layersControl map) = [("Earthquakes"%string, earthquakes)] /\
    legend map
    = {| className := "legend";
         innerHTML :=
           legendHTML (match domain with
             | [] => []
             | _ :: others =>
                 "<li>0.01 +</li>"%string
                 :: List.map (fun v => "<li>" ++ fmt v ++ "</li>")%string others
             end) |}.
Proof.
  intros Hf Hc Hd. eexists. split.
  - unfold createMap. rewrite Hc.
    cbn [mbind Prog_bind bind mret Prog_ret].
    change (bind ?p ?f) with (p ≫= f). rewrite run_bind.
    rewrite (run_onAdd h fmt Hf (set_mapContainer HoldsMap g) domain Hd).
    reflexivity.
  - repeat split.
Qed.

(** [chroma.limits] is called once, after the fetch and the console line,
    over the extracted depths, in mode "l", for 5 classes. *)
Lemma limitsCalls_init (g : Globals) (feed : FeatureCollection) :
  h FeatureCollection (d3_json url) = Some feed ->
  h unit (console_log "Total Earthquakes" (length (getDepths (features feed)))) = Some tt ->
  limitsCalls (trace h (init g)) = [(getDepths (features feed), "l"%string, 5%Z)].
Proof.
  intros Hfeed Hlog. unfold init.
  rewrite trace_bind, trace_call, run_call, Hfeed.
  rewrite trace_bind, trace_call, run_call, Hlog.
  rewrite trace_bind, trace_call, run_call.
  change (Z.of_nat (length gradientColors) - 1)%Z with 5%Z.
  rewrite !limitsCalls_app. simpl (limitsCalls [_]).
  destruct (h (list JsNumber) _) as [limits|]; [|reflexivity].
  rewrite trace_bind, limitsCalls_app.
  rewrite (Quiet_trace h _ (Quiet_createEarthquakeFeatures _ _)).
  destruct (run h (createEarthquakeFeatures _ _)) as [earthquakes|]; [|reflexivity].
  by rewrite (Quiet_trace h _ (Quiet_createMap _ _)).
Qed.

(** [init], call by call. *)
Lemma run_init (g : Globals) :
  run h (init g)
  = (feed ← h FeatureCollection (d3_json url);
     _ ← h unit (console_log "Total Earthquakes" (length (getDepths (features feed))));
     limits ← h (list JsNumber) (chroma_limits (getDepths (features feed)) "l" 5);
     earthquakes ← run h (createEarthquakeFeatures (globalsWith limits (mapContainer g))
                            (features feed));
     run h (createMap (globalsWith limits (mapContainer g)) earthquakes)).
Proof.
  unfold init. rewrite run_bind, run_call.
  destruct (h FeatureCollection (d3_json url)) as [feed|]; [|reflexivity].
  cbn [mbind option_bind]. rewrite run_bind, run_call.
  destruct (h unit _) as [[]|]; [|reflexivity].
  cbn [mbind option_bind]. rewrite run_bind, run_call.
  change (Z.of_nat (length gradientColors) - 1)%Z with 5%Z.
  destruct (h (list JsNumber) _) as [limits|]; [|reflexivity].
  cbn [mbind option_bind]. rewrite run_bind.
  change (set_chromaScale _ (set_colorDomain limits g))
    with (globalsWith limits (mapContainer g)).
  reflexivity.
Qed.


End Pipeline.

(** What a map that [createMap] returned was made of. *)
Lemma run_createMap_inv (h : Host) (g : Globals) (earthquakes : list CircleMarker)
    (map : LeafletMap) (g' : Globals) :
  run h (createMap g earthquakes) = Some (map, g') ->
  mapContainer g = Empty /\
  g' = set_mapContainer HoldsMap g /\
  layers map = (esriGray, earthquakes) /\
  overlayMaps (layersControl map) = [("Earthquakes"%string, earthquakes)] /\
  run h (onAdd createLegend g') = Some (legend map).
Proof.
  unfold createMap. destruct (mapContainer g); try discriminate.
  cbn [mbind Prog_bind bind mret Prog_ret].
  change (bind ?p ?f) with (p ≫= f). rewrite run_bind.
  destruct (run h (onAdd createLegend (set_mapContainer HoldsMap g))) as [div|] eqn:Hdiv;
    [|discriminate].
  cbn [mbind option_bind run mret Prog_ret]. intros [= <- <-].
  cbn [layers layersControl overlayMaps legend]. by rewrite Hdiv.
Qed.

(** C7, as stated, fails: on an empty feature collection [init] does call
    [chroma.limits], over the empty depth sequence, and with the six
    boundaries a logarithmic partition of no data comes to, the legend it
    ends with has six items, not none. *)
Lemma empty_feed_builds_scale :
  getDepths (features Sample.emptyFeed) = [] /\
  limitsCalls (trace (Sample.host Sample.emptyFeed Sample.noData) (init undefinedGlobals))
  = [([], "l"%string, 5%Z)] /\
  limitsCalls (trace (Sample.host Sample.emptyFeed Sample.noData) (init undefinedGlobals))
  <> [] /\
  exists map : LeafletMap,
    run (Sample.host Sample.emptyFeed Sample.noData) (init undefinedGlobals)
    = Some (map, globalsAfter Sample.noData) /\
    innerHTML (legend map)
    = ("<h3 class=" ++ dq ++ "legend_title" ++ dq ++ ">Depth (km)</h3>" ++ nl
       ++ blanks 24 ++ "<div class=" ++ dq ++ "data_container" ++ dq ++ ">" ++ nl
       ++ blanks 28 ++ "<div class=" ++ dq ++ "gradient" ++ dq ++ " style=" ++ dq
       ++ "background: linear-gradient(#9AFF9A, #5AFF5A, #28C428, #FF7878, #FF3232, #FF0000)"
       ++ dq ++ "></div>" ++ nl
       ++ blanks 28 ++ "<div class=" ++ dq ++ "gradient_values" ++ dq ++ ">" ++ nl
       ++ blanks 32 ++ "<ul>" ++ nl
       ++ blanks 36
       ++ String.concat EmptyString
            ["<li>0.01 +</li>"; "<li>NaN</li>"; "<li>NaN</li>"; "<li>NaN</li>";
             "<li>NaN</li>";
             "<li>" ++ Sample.format (Finite (- MAX_VALUE)) ++ "</li>"]%string
       ++ nl
       ++ blanks 32 ++ "</ul>" ++ nl
       ++ blanks 28 ++ "</div>" ++ nl
       ++ blanks 24 ++ "</div>")%string.
Proof.
  split; [reflexivity|]. split; [reflexivity|]. split; [discriminate|].
  eexists. split; reflexivity.
Qed.

(** C7, amended: on an empty feature collection [init] extracts no depth
    and still calls [chroma.limits], once, over the empty sequence; if that
    call fails so does [init]; if it answers, on a page whose map container
    is free, [init] ends with an overlay that holds no marker and a legend
    of one item for each boundary the call answered, the first reading
    "0.01 +" and the others as [toLocaleString] prints them, be they
    numbers or not. *)
Theorem init_empty_feed (h : Host) (g : Globals) :
  h FeatureCollection (d3_json url) = Some {| features := [] |} ->
  h unit (console_log "Total Earthquakes" 0) = Some tt ->
  limitsCalls (trace h (init g)) = [([], "l"%string, 5%Z)] /\
  (h (list JsNumber) (chroma_limits [] "l" 5) = None -> run h (init g) = None) /\
  forall (limits : list JsNumber) (fmt : JsNumber -> string),
    h (list JsNumber) (chroma_limits [] "l" 5) = Some limits ->
    (forall v : JsNumber,
        h string (toLocaleString v {| maximumFractionDigits := 2;
                                      minimumFractionDigits := 2 |}) = Some (fmt v)) ->
    mapContainer g = Empty ->
    exists map : LeafletMap,
      run h (init g) = Some (map, globalsAfter limits) /\
      snd (layers map) = [] /\
      overlayMaps (layersControl map) = [("Earthquakes"%string, [])] /\
      innerHTML (legend map)
      = ("<h3 class=" ++ dq ++ "legend_title" ++ dq ++ ">Depth (km)</h3>" ++ nl
       ++ blanks 24 ++ "<div class=" ++ dq ++ "data_container" ++ dq ++ ">" ++ nl
       ++ blanks 28 ++ "<div class=" ++ dq ++ "gradient" ++ dq ++ " style=" ++ dq
       ++ "background: linear-gradient(#9AFF9A, #5AFF5A, #28C428, #FF7878, #FF3232, #FF0000)"
       ++ dq ++ "></div>" ++ nl
       ++ blanks 28 ++ "<div class=" ++ dq ++ "gradient_values" ++ dq ++ ">" ++ nl
       ++ blanks 32 ++ "<ul>" ++ nl
       ++ blanks 36
       ++ String.concat EmptyString
            match limits with
             | [] => []
             | _ :: others =>
                 "<li>0.01 +</li>"%string
                 :: List.map (fun v => "<li>" ++ fmt v ++ "</li>")%string others
             end
       ++ nl
       ++ blanks 32 ++ "</ul>" ++ nl
       ++ blanks 28 ++ "</div>" ++ nl
       ++ blanks 24 ++ "</div>")%string.
Proof.
  intros Hfeed Hlog. split; [|split].
  - by apply (limitsCalls_init h g {| features := [] |}).
  - intros Hnone. rewrite run_init, Hfeed. cbn [mbind option_bind].
    change (getDepths (features {| features := [] |})) with (@nil Q).
    cbn [length]. rewrite Hlog. cbn [mbind option_bind]. by rewrite Hnone.
  - intros limits fmt Hlimits Hfmt Hc. rewrite run_init, Hfeed. cbn [mbind option_bind].
    change (getDepths (features {| features := [] |})) with (@nil Q).
    cbn [length]. rewrite Hlog. cbn [mbind option_bind]. rewrite Hlimits.
    cbn [mbind option_bind features]. rewrite run_createEarthquakeFeatures_nil.
    cbn [mbind option_bind]. rewrite Hc.
    destruct (run_createMap h (globalsWith limits Empty) limits fmt [] Hfmt eq_refl eq_refl)
      as (map & Hrun & Hlayers & Hoverlay & Hlegend).
    exists map. split; [exact Hrun|]. rewrite Hlayers, Hoverlay, Hlegend.
    split; [reflexivity|]. split; [reflexivity|]. cbn [innerHTML]. apply legendHTML_text.
Qed.

Lemma init_empty_feed_witness :
  limitsCalls (trace (Sample.host Sample.emptyFeed Sample.noData) (init undefinedGlobals))
  = [([], "l"%string, 5%Z)] /\
  exists map : LeafletMap,
    run (Sample.host Sample.emptyFeed Sample.noData) (init undefinedGlobals)
    = Some (map, globalsAfter Sample.noData) /\
    snd (layers map) = [] /\
    overlayMaps (layersControl map) = [("Earthquakes"%string, [])] /\
    innerHTML (legend map)
    = ("<h3 class=" ++ dq ++ "legend_title" ++ dq ++ ">Depth (km)</h3>" ++ nl
       ++ blanks 24 ++ "<div class=" ++ dq ++ "data_container" ++ dq ++ ">" ++ nl
       ++ blanks 28 ++ "<div class=" ++ dq ++ "gradient" ++ dq ++ " style=" ++ dq
       ++ "background: linear-gradient(#9AFF9A, #5AFF5A, #28C428, #FF7878, #FF3232, #FF0000)"
       ++ dq ++ "></div>" ++ nl
       ++ blanks 28 ++ "<div class=" ++ dq ++ "gradient_values" ++ dq ++ ">" ++ nl
       ++ blanks 32 ++ "<ul>" ++ nl
       ++ blanks 36
       ++ String.concat EmptyString
            match Sample.noData with
             | [] => []
             | _ :: others =>
                 "<li>0.01 +</li>"%string
                 :: List.map (fun v => "<li>" ++ Sample.format v ++ "</li>")%string others
             end
       ++ nl
       ++ blanks 32 ++ "</ul>" ++ nl
       ++ blanks 28 ++ "</div>" ++ nl
       ++ blanks 24 ++ "</div>")%string.
Proof.
  destruct (init_empty_feed (Sample.host Sample.emptyFeed Sample.noData) undefinedGlobals
              eq_refl eq_refl) as (Htrace & _ & Hrun).
  split; [exact Htrace|].
  apply (Hrun Sample.noData Sample.format); [reflexivity| |reflexivity].
  intros v. reflexivity.
Defined.





Section Rendering.

Context (h : Host) (g : Globals) (map : LeafletMap) (g1 : Globals).
Hypothesis completes : run h (init g) = Some (map, g1).

(** What a completed run has been through. *)
Lemma completed_run :
  exists (feed : FeatureCollection) (limits : list JsNumber)
         (earthquakes : list CircleMarker),
    h FeatureCollection (d3_json url) = Some feed /\
    h unit (console_log "Total Earthquakes" (length (getDepths (features feed))))
    = Some tt /\
    h (list JsNumber) (chroma_limits (getDepths (features feed)) "l" 5) = Some limits /\
    run h (createEarthquakeFeatures (globalsWith limits Empty) (features feed))
    = Some earthquakes /\
    run h (createMap (globalsWith limits Empty) earthquakes) = Some (map, g1) /\
    mapContainer g = Empty /\
    g1 = globalsAfter limits.
Proof.
  pose proof completes as H. rewrite run_init in H.
  destruct (h FeatureCollection (d3_json url)) as [feed|]; [|discriminate].
  cbn [mbind option_bind] in H.
  destruct (h unit _) as [[]|] eqn:Hlog; [|discriminate].
  cbn [mbind option_bind] in H.
  destruct (h (list JsNumber) _) as [limits|] eqn:Hlim; [|discriminate].
  cbn [mbind option_bind] in H.
  destruct (mapContainer g) eqn:Hc.
  - destruct (run h (createEarthquakeFeatures _ _)); [|discriminate].
    cbn [mbind option_bind] in H. discriminate.
  - destruct (run h (createEarthquakeFeatures _ _)) as [earthquakes|] eqn:Hms;
      [|discriminate].
    cbn [mbind option_bind] in H.
    exists feed, limits, earthquakes.
    split; [reflexivity|]. split; [exact Hlog|]. split; [exact Hlim|].
    split; [exact Hms|]. split; [exact H|]. split; [reflexivity|].
    unfold createMap in H. cbn [mapContainer globalsWith] in H.
    cbn [mbind Prog_bind bind mret Prog_ret] in H.
    change (bind ?p ?f) with (p ≫= f) in H. rewrite run_bind in H.
    destruct (run h (onAdd createLegend _)) as [div|]; [|discriminate].
    cbn [mbind option_bind run mret Prog_ret] in H. by injection H as _ <-.
  - destruct (run h (createEarthquakeFeatures _ _)); [|discriminate].
    cbn [mbind option_bind] in H. discriminate.
Qed.

End Rendering.



(** * Further properties of the script *)

(** ** Radius and depth *)

(** X1: the radius is the larger of 2 and four times the magnitude. *)
Theorem radialMagnitude_is_max (m : Q) : radialMagnitude m == Qmax 2 (4 * m).
Proof.
  destruct (Qlt_le_dec m 0.5) as [H|H].
  - rewrite radialMagnitude_small by done. symmetry. apply Q.max_l. lra.
  - rewrite radialMagnitude_linear by done.
    transitivity (4 * m); [ring|]. symmetry. apply Q.max_r. lra.
Qed.

(** X2: for two magnitudes whose quadruple does not exceed
    [Number.MAX_VALUE], so that the product in [radialMagnitude] does not
    overflow, the radii are the same exactly when the magnitudes are equal
    or both at most 0.5. *)
Theorem radialMagnitude_same_radius (m1 m2 : Q) :
  4 * m1 <= MAX_VALUE ->
  4 * m2 <= MAX_VALUE ->
  (radialMagnitude m1 == radialMagnitude m2 <->
   (m1 == m2 \/ (m1 <= 0.5 /\ m2 <= 0.5))).
Proof.
  intros _ _.
  destruct (Qlt_le_dec m1 0.5) as [H1|H1], (Qlt_le_dec m2 0.5) as [H2|H2];
    rewrite ?(radialMagnitude_small m1), ?(radialMagnitude_small m2),
            ?(radialMagnitude_linear m1), ?(radialMagnitude_linear m2) by done;
    split; intros H.
  - right. lra.
  - reflexivity.
  - destruct (Qeq_dec m2 0.5) as [E|E]; [right; lra|].
    exfalso. assert (0.5 < m2) by (apply Qle_lt_or_eq in H2 as [?|?]; [done|lra]). lra.
  - destruct H as [H|H]; lra.
  - destruct (Qeq_dec m1 0.5) as [E|E]; [right; lra|].
    exfalso. assert (0.5 < m1) by (apply Qle_lt_or_eq in H1 as [?|?]; [done|lra]). lra.
  - destruct H as [H|H]; lra.
  - left. lra.
  - destruct H as [H|H]; lra.
Qed.

Lemma radialMagnitude_same_radius_witness :
  radialMagnitude 0.3 == radialMagnitude 0.5.
Proof.
  apply (proj2 (radialMagnitude_same_radius 0.3 0.5
                  ltac:(apply Qle_bool_imp_le; vm_compute; reflexivity)
                  ltac:(apply Qle_bool_imp_le; vm_compute; reflexivity))).
  right. split; discriminate.
Defined.

(** X3: every depth [getDepths] returns is strictly positive, whatever the
    features hold, a feature without a third coordinate included. *)
Theorem getDepths_all_positive (fs : list Feature) :
  Forall (fun d => 0 < d) (getDepths fs).
Proof.
  unfold getDepths. induction fs as [|f fs IH]; constructor; [|exact IH].
  apply positiveOr_positive.
Qed.

(** X4: the extracted depth keeps the order of two source depths as long
    as the larger one is not strictly between 0 and 0.01; when it is, and
    the smaller one is zero or negative, the order is reversed: the smaller
    depth is replaced by 0.01 and ends above the larger. *)
Theorem extraction_order :
  (forall d1 d2 : Q,
      d1 <= d2 -> d2 <= 0 \/ 0.01 <= d2 ->
      positiveOr (Some d1) <= positiveOr (Some d2)) /\
  (forall d1 d2 : Q,
      d1 <= 0 -> 0 < d2 -> d2 < 0.01 ->
      d1 < d2 /\ positiveOr (Some d2) < positiveOr (Some d1)).
Proof.
  split.
  - intros d1 d2 H [H2|H2].
    + rewrite (positiveOr_floor d1) by lra. rewrite (positiveOr_floor d2) by done. lra.
    + rewrite (positiveOr_pos d2) by lra. destruct (Qlt_le_dec 0 d1) as [H1|H1].
      * by rewrite positiveOr_pos.
      * by rewrite positiveOr_floor.
  - intros d1 d2 H1 H2 H3. split; [lra|].
    by rewrite (positiveOr_floor d1), (positiveOr_pos d2).
Qed.

(** X5: for a feature of positive depth the value handed to the colour
    scale is that depth, and it is one of the depths the scale's
    boundaries are computed from. *)
Theorem color_from_extracted_depth (h : Host) (g : Globals) (s : Scale)
    (fs : list Feature) (feature : Feature) (ll : LatLng) (d : Q) :
  chromaScale g = Some s ->
  feature ∈ fs ->
  depthOf feature = Some d ->
  0 < d ->
  Forall (fun v => v = Some d) (scaleArgs (trace h (_pointToLayer g feature ll))) /\
  d ∈ getDepths fs.
Proof.
  intros Hs Hin Hd Hpos. rewrite (scaleArgs_pointToLayer h g s Hs), Hd. split.
  - destruct (h string _); repeat constructor.
  - unfold getDepths. apply list_elem_of_fmap. exists feature.
    split; [|done]. simpl. by rewrite Hd, positiveOr_pos.
Qed.

Lemma color_from_extracted_depth_witness :
  Forall (fun v => v = Some 100)
    (scaleArgs (trace (Sample.host Sample.feed Sample.limits)
                  (_pointToLayer (globalsAfter Sample.limits) Sample.deep
                     {| lat := 38.1; lng := -122.5; alt := Some 100 |}))) /\
  100 ∈ getDepths (features Sample.feed).
Proof.
  apply (color_from_extracted_depth (Sample.host Sample.feed Sample.limits)
           (globalsAfter Sample.limits)
           {| scaleColors := gradientColors; scaleDomain := Sample.limits |}
           (features Sample.feed) Sample.deep).
  - reflexivity.
  - apply list_elem_of_In. simpl. left. reflexivity.
  - reflexivity.
  - reflexivity.
Defined.

(** ** Before [init] has run *)

(** X6: while [chromaScale] is still undefined, [_pointToLayer] dies of a
    TypeError before it calls anything, and so does the overlay of any
    feed that has a feature with a latitude and a longitude first. *)
Theorem pointToLayer_before_init (h : Host) (g : Globals) (feature : Feature)
    (ll : LatLng) :
  chromaScale g = None ->
  run h (_pointToLayer g feature ll) = None /\
  trace h (_pointToLayer g feature ll) = [] /\
  forall (la lo : Q) (fs : list Feature),
    coordinates (geometry feature) !! 1%nat = Some la ->
    coordinates (geometry feature) !! 0%nat = Some lo ->
    run h (createEarthquakeFeatures g (feature :: fs)) = None.
Proof.
  intros Hs. unfold _pointToLayer, colorDepth. rewrite Hs.
  split; [reflexivity|]. split; [reflexivity|].
  intros la lo fs Hla Hlo. unfold createEarthquakeFeatures. cbn [mapM].
  rewrite !run_bind. unfold coordsToLatLng. rewrite Hla, Hlo.
  unfold _pointToLayer, colorDepth. rewrite Hs. reflexivity.
Qed.

Lemma pointToLayer_before_init_witness :
  run (Sample.host Sample.feed Sample.limits)
      (_pointToLayer undefinedGlobals Sample.deep
         {| lat := 38.1; lng := -122.5; alt := Some 100 |}) = None /\
  trace (Sample.host Sample.feed Sample.limits)
      (_pointToLayer undefinedGlobals Sample.deep
         {| lat := 38.1; lng := -122.5; alt := Some 100 |}) = [].
Proof.
  destruct (pointToLayer_before_init (Sample.host Sample.feed Sample.limits)
              undefinedGlobals Sample.deep
              {| lat := 38.1; lng := -122.5; alt := Some 100 |} eq_refl)
    as (Hrun & Htrace & _).
  split; [exact Hrun|exact Htrace].
Defined.

(** X7: while [colorDomain] is still undefined, adding the legend dies of a
    TypeError before any number is formatted, and [createMap] dies with
    it. *)
Theorem legend_before_init (h : Host) (g : Globals) (earthquakes : list CircleMarker) :
  colorDomain g = None ->
  run h (onAdd createLegend g) = None /\
  trace h (onAdd createLegend g) = [] /\
  run h (createMap g earthquakes) = None.
Proof.
  intros Hd. split; [|split].
  - simpl onAdd. by rewrite Hd.
  - simpl onAdd. by rewrite Hd.
  - unfold createMap. destruct (mapContainer g); try reflexivity.
    cbn [mbind Prog_bind bind mret Prog_ret set_mapContainer onAdd createLegend colorDomain].
    by rewrite Hd.
Qed.

Lemma legend_before_init_witness :
  run (Sample.host Sample.feed Sample.limits) (onAdd createLegend undefinedGlobals) = None /\
  trace (Sample.host Sample.feed Sample.limits) (onAdd createLegend undefinedGlobals) = [] /\
  run (Sample.host Sample.feed Sample.limits) (createMap undefinedGlobals []) = None.
Proof.
  apply (legend_before_init (Sample.host Sample.feed Sample.limits) undefinedGlobals []).
  reflexivity.
Defined.

(** ** What the legend asks of the formatter *)

Lemma formatCalls_app (tr1 tr2 : list Call) :
  formatCalls (tr1 ++ tr2) = (formatCalls tr1 ++ formatCalls tr2)%list.
Proof. apply flat_map_app. Qed.

Section LegendCalls.

Context (h : Host) (fmt : JsNumber -> string).
Hypothesis formats :
  forall v : JsNumber, h string (toLocaleString v twoFractionDigits) = Some (fmt v).

Lemma formatCalls_legendItems_next (domain : list JsNumber) (index : nat) :
  formatCalls (trace h (forEachP legendItem (S index) domain))
  = List.map (fun v => (v, twoFractionDigits)) domain.
Proof.
  revert index. induction domain as [|v domain IH]; intros index; [reflexivity|].
  cbn [forEachP]. rewrite trace_bind, formatCalls_app.
  rewrite (run_legendItem_next h fmt formats).
  rewrite trace_bind, formatCalls_app, IH, (run_legendItems_next h fmt formats).
  unfold legendItem. simpl Nat.eqb. cbv iota.
  rewrite trace_bind, trace_call, run_call, formats. simpl. by rewrite app_nil_r.
Qed.

Lemma formatCalls_legendItems (domain : list JsNumber) :
  formatCalls (trace h (forEachP legendItem 0 domain))
  = List.map (fun v => (v, twoFractionDigits)) (tail domain).
Proof.
  destruct domain as [|v others]; [reflexivity|].
  cbn [forEachP tail]. rewrite trace_bind, formatCalls_app.
  rewrite run_legendItem_first.
  rewrite trace_bind, formatCalls_app, formatCalls_legendItems_next.
  rewrite (run_legendItems_next h fmt formats). simpl. by rewrite app_nil_r.
Qed.

End LegendCalls.

(** X8: when the legend is added, [toLocaleString] is asked once for each
    boundary after the first, in order, each time with exactly two
    fraction digits; the first boundary is never formatted. *)
Theorem legend_format_calls (h : Host) (g : Globals) (domain : list JsNumber)
    (fmt : JsNumber -> string) :
  colorDomain g = Some domain ->
  (forall v : JsNumber,
      h string (toLocaleString v {| maximumFractionDigits := 2;
                                    minimumFractionDigits := 2 |}) = Some (fmt v)) ->
  formatCalls (trace h (onAdd createLegend g))
  = List.map (fun v => (v, {| maximumFractionDigits := 2; minimumFractionDigits := 2 |}))
             (tail domain).
Proof.
  intros Hd Hf. simpl onAdd. rewrite Hd, trace_bind, formatCalls_app.
  rewrite (formatCalls_legendItems h fmt Hf), (run_legendItems h fmt Hf).
  simpl. by rewrite app_nil_r.
Qed.

Lemma legend_format_calls_witness :
  formatCalls (trace (Sample.host Sample.feed Sample.limits)
                 (onAdd createLegend (globalsAfter Sample.limits)))
  = List.map (fun v => (v, {| maximumFractionDigits := 2; minimumFractionDigits := 2 |}))
             (tail Sample.limits).
Proof.
  apply (legend_format_calls (Sample.host Sample.feed Sample.limits)
           (globalsAfter Sample.limits) Sample.limits Sample.format).
  - reflexivity.
  - intros v. reflexivity.
Defined.

(** ** Popups *)

(** X9: [_addPopup] binds to the marker the text made of the place, the
    magnitude as the host prints it and the time as the en-us formatter
    prints it in UTC with a medium date and a short time, followed by
    " UTC"; position, colours, opacity, stroke and radius of the marker are
    left as they were. *)
Theorem addPopup_binds (h : Host) (feature : Feature) (layer : CircleMarker)
    (magText dateText : string) :
  h string (number_toString (mag (properties feature))) = Some magText ->
  h string (dateFormat_format "en-us"
              {| dateStyle := "medium"; timeStyle := "short"; timeZone := "UTC" |}
              (time (properties feature))) = Some dateText ->
  exists m : CircleMarker,
    run h (_addPopup feature layer) = Some m /\
    popup m = Some (place (properties feature) ++ "<hr>" ++ nl
                    ++ blanks 20 ++ "Magnitude: " ++ magText ++ "<hr>" ++ nl
                    ++ blanks 20 ++ dateText ++ " UTC")%string /\
    latLong m = latLong layer /\
    color m = color layer /\
    fillColor m = fillColor layer /\
    fillOpacity m = fillOpacity layer /\
    stroke m = stroke layer /\
    radius m = radius layer.
Proof.
  intros Hm Hd. eexists. split.
  - unfold _addPopup. rewrite run_bind, run_call, Hm. cbn [mbind option_bind].
    rewrite run_bind, run_call. unfold popupDateFormat. rewrite Hd. reflexivity.
  - repeat split.
Qed.

Lemma addPopup_binds_witness :
  exists m : CircleMarker,
    run (Sample.host Sample.feed Sample.limits)
        (_addPopup Sample.deep
           {| latLong := {| lat := 38.1; lng := -122.5; alt := Some 100 |};
              color := "#FF0000"; fillColor := "#FF0000"; fillOpacity := 0.8;
              stroke := false; radius := 24; popup := None |}) = Some m /\
    popup m = Some ("10km N of Somewhere" ++ "<hr>" ++ nl
                    ++ blanks 20 ++ "Magnitude: " ++ "6.00" ++ "<hr>" ++ nl
                    ++ blanks 20 ++ "Jan 1, 2024, 12:00 AM" ++ " UTC")%string /\
    latLong m = {| lat := 38.1; lng := -122.5; alt := Some 100 |} /\
    color m = "#FF0000"%string /\
    fillColor m = "#FF0000"%string /\
    fillOpacity m = 0.8 /\
    stroke m = false /\
    radius m = 24.
Proof.
  apply (addPopup_binds (Sample.host Sample.feed Sample.limits) Sample.deep
           {| latLong := {| lat := 38.1; lng := -122.5; alt := Some 100 |};
              color := "#FF0000"; fillColor := "#FF0000"; fillOpacity := 0.8;
              stroke := false; radius := 24; popup := None |}
           "6.00" "Jan 1, 2024, 12:00 AM"); reflexivity.
Defined.

(** X10: the popup is made from the feature's properties alone: two
    features with the same properties get the same popup whatever their
    coordinates, so the depth never shows in it. *)
Theorem popup_ignores_geometry (feature1 feature2 : Feature) (layer : CircleMarker) :
  properties feature1 = properties feature2 ->
  _addPopup feature1 layer = _addPopup feature2 layer.
Proof.
  intros H. unfold _addPopup. by rewrite H.
Qed.

Lemma popup_ignores_geometry_witness :
  _addPopup Sample.deep
    {| latLong := {| lat := 38.1; lng := -122.5; alt := Some 100 |};
       color := "#FF0000"; fillColor := "#FF0000"; fillOpacity := 0.8;
       stroke := false; radius := 24; popup := None |}
  = _addPopup {| geometry := {| coordinates := [-122.5; 38.1; 3] |};
                 properties := properties Sample.deep |}
      {| latLong := {| lat := 38.1; lng := -122.5; alt := Some 100 |};
         color := "#FF0000"; fillColor := "#FF0000"; fillOpacity := 0.8;
         stroke := false; radius := 24; popup := None |}.
Proof.
  apply (popup_ignores_geometry Sample.deep
           {| geometry := {| coordinates := [-122.5; 38.1; 3] |};
              properties := properties Sample.deep |}).
  reflexivity.
Defined.

(** ** The overlay *)

Lemma radialMagnitude_ge_2 (m : Q) : 2 <= radialMagnitude m.
Proof.
  destruct (Qlt_le_dec m 0.5) as [H|H].
  - rewrite radialMagnitude_small by done. lra.
  - rewrite radialMagnitude_linear by done. lra.
Qed.

Section Overlay.

Context (h : Host) (g : Globals) (s : Scale).
Hypothesis scale_set : chromaScale g = Some s.

(** One feature whose colour the scale fails to give. *)
Lemma run_feature_no_color (feature : Feature) :
  h string (scale_hex s (depthOf feature)) = None ->
  run h (latlng ← coordsToLatLng (coordinates (geometry feature));
         layer ← _pointToLayer g feature latlng;
         _addPopup feature layer) = None.
Proof.
  intros Hc. rewrite run_bind. unfold coordsToLatLng.
  destruct (coordinates (geometry feature) !! 1%nat) as [la|]; [|reflexivity].
  destruct (coordinates (geometry feature) !! 0%nat) as [lo|]; [|reflexivity].
  cbn [run mret Prog_ret mbind option_bind]. rewrite run_bind.
  unfold _pointToLayer. by rewrite run_bind, (run_colorDepth h g s scale_set), Hc.
Qed.

Lemma run_overlay_no_color (fs : list Feature) (feature : Feature) :
  feature ∈ fs ->
  h string (scale_hex s (depthOf feature)) = None ->
  run h (createEarthquakeFeatures g fs) = None.
Proof.
  intros Hin Hc. unfold createEarthquakeFeatures.
  induction fs as [|x fs IH]; [by apply elem_of_nil in Hin|].
  cbn [mapM]. rewrite run_bind. apply elem_of_cons in Hin as [<-|Hin].
  - by rewrite run_feature_no_color.
  - destruct (run h (coordsToLatLng (coordinates (geometry x)) ≫= _)) as [y|];
      [|reflexivity].
    cbn [mbind option_bind]. by rewrite run_bind, IH.
Qed.

Context (hexf : option Q -> string) (numf : Q -> string) (datef : Z -> string).
Hypothesis colours : forall v : option Q, h string (scale_hex s v) = Some (hexf v).
Hypothesis prints : forall v : Q, h string (number_toString v) = Some (numf v).
Hypothesis dates :
  forall t : Z, h string (dateFormat_format "en-us" popupDateFormat t) = Some (datef t).

Lemma run_feature (feature : Feature) (la lo : Q) :
  coordinates (geometry feature) !! 1%nat = Some la ->
  coordinates (geometry feature) !! 0%nat = Some lo ->
  run h (latlng ← coordsToLatLng (coordinates (geometry feature));
         layer ← _pointToLayer g feature latlng;
         _addPopup feature layer)
  = Some {| latLong := {| lat := la; lng := lo; alt := depthOf feature |};
            color := hexf (depthOf feature);
            fillColor := hexf (depthOf feature);
            fillOpacity := 0.8;
            stroke := false;
            radius := radialMagnitude (mag (properties feature));
            popup := Some (place (properties feature) ++ "<hr>" ++ nl
                           ++ blanks 20 ++ "Magnitude: "
                           ++ numf (mag (properties feature)) ++ "<hr>" ++ nl
                           ++ blanks 20 ++ datef (time (properties feature))
                           ++ " UTC")%string |}.
Proof.
  intros Hla Hlo. rewrite run_bind. unfold coordsToLatLng. rewrite Hla, Hlo.
  cbn [run mret Prog_ret mbind option_bind]. rewrite run_bind.
  rewrite (run_pointToLayer h g s scale_set feature _ _ (colours _)).
  cbn [mbind option_bind]. unfold _addPopup.
  rewrite run_bind, run_call, prints. cbn [mbind option_bind].
  rewrite run_bind, run_call, dates. reflexivity.
Qed.

End Overlay.

(** What holds of a marker as soon as a feature has made it through. *)
Lemma run_feature_inv (h : Host) (g : Globals) (feature : Feature) (m : CircleMarker) :
  run h (latlng ← coordsToLatLng (coordinates (geometry feature));
         layer ← _pointToLayer g feature latlng;
         _addPopup feature layer) = Some m ->
  stroke m = false /\ fillOpacity m == 0.8 /\ 2 <= radius m /\
  color m = fillColor m /\ is_Some (popup m).
Proof.
  rewrite run_bind. unfold coordsToLatLng.
  destruct (coordinates (geometry feature) !! 1%nat) as [la|]; [|discriminate].
  destruct (coordinates (geometry feature) !! 0%nat) as [lo|]; [|discriminate].
  cbn [run mret Prog_ret mbind option_bind]. rewrite run_bind.
  destruct (chromaScale g) as [s|] eqn:Hs.
  - destruct (h string (scale_hex s (depthOf feature))) as [c|] eqn:Hc.
    + rewrite (run_pointToLayer h g s Hs feature _ c Hc). cbn [mbind option_bind].
      unfold _addPopup. rewrite run_bind, run_call.
      destruct (h string (number_toString _)) as [mt|]; [|discriminate].
      cbn [mbind option_bind]. rewrite run_bind, run_call.
      destruct (h string (dateFormat_format _ _ _)) as [dt|]; [|discriminate].
      cbn [mbind option_bind run mret Prog_ret]. intros [= <-].
      cbn [stroke fillOpacity radius color fillColor popup bindPopup].
      split; [reflexivity|]. split; [reflexivity|].
      split; [apply radialMagnitude_ge_2|]. split; [reflexivity|by eexists].
    + unfold _pointToLayer. rewrite run_bind, (run_colorDepth h g s Hs), Hc. discriminate.
  - unfold _pointToLayer, colorDepth. rewrite Hs. discriminate.
Qed.

(** The overlay, marker by marker, under a host that answers. *)
Lemma run_overlay (h : Host) (g : Globals) (s : Scale) (fs : list Feature)
    (hexf : option Q -> string) (numf : Q -> string) (datef : Z -> string) :
  chromaScale g = Some s ->
  (forall v : option Q, h string (scale_hex s v) = Some (hexf v)) ->
  (forall v : Q, h string (number_toString v) = Some (numf v)) ->
  (forall t : Z, h string (dateFormat_format "en-us" popupDateFormat t) = Some (datef t)) ->
  Forall (fun f => (2 <= length (coordinates (geometry f)))%nat) fs ->
  exists ms : list CircleMarker,
    run h (createEarthquakeFeatures g fs) = Some ms /\
    Forall2 (fun f m =>
               coordinates (geometry f) !! 1%nat = Some (lat (latLong m)) /\
               coordinates (geometry f) !! 0%nat = Some (lng (latLong m)) /\
               color m = hexf (depthOf f) /\
               fillColor m = hexf (depthOf f) /\
               radius m = radialMagnitude (mag (properties f)) /\
               popup m = Some (place (properties f) ++ "<hr>" ++ nl
                               ++ blanks 20 ++ "Magnitude: "
                               ++ numf (mag (properties f)) ++ "<hr>" ++ nl
                               ++ blanks 20 ++ datef (time (properties f))
                               ++ " UTC")%string)
            fs ms.
Proof.
  intros Hs Hc Hn Hd Hwf. unfold createEarthquakeFeatures.
  induction Hwf as [|f fs Hf _ IH]; [exists []; split; [reflexivity|constructor]|].
  destruct IH as (ms & Hrun & Hall).
  destruct (lookup_lt_is_Some_2 (coordinates (geometry f)) 1%nat) as [la Hla]; [lia|].
  destruct (lookup_lt_is_Some_2 (coordinates (geometry f)) 0%nat) as [lo Hlo]; [lia|].
  eexists. split.
  - cbn [mapM]. rewrite run_bind.
    rewrite (run_feature h g s Hs hexf numf datef Hc Hn Hd f la lo Hla Hlo).
    cbn [mbind option_bind]. rewrite run_bind, Hrun. reflexivity.
  - constructor; [|exact Hall]. cbn. by repeat split.
Qed.

(** X11: with the scale set and a host that answers, the overlay of a feed
    whose features all carry a longitude and a latitude has one marker per
    feature, in the order of the feed; the marker sits at
    (coordinates[1], coordinates[0]), has both colours from the scale at the
    feature's depth, the radius of its magnitude, and the popup of its
    place, magnitude and time. *)
Theorem overlay_markers (h : Host) (g : Globals) (s : Scale) (fs : list Feature)
    (hexf : option Q -> string) (numf : Q -> string) (datef : Z -> string) :
  chromaScale g = Some s ->
  (forall v : option Q, h string (scale_hex s v) = Some (hexf v)) ->
  (forall v : Q, h string (number_toString v) = Some (numf v)) ->
  (forall t : Z, h string (dateFormat_format "en-us" popupDateFormat t) = Some (datef t)) ->
  Forall (fun f => (2 <= length (coordinates (geometry f)))%nat) fs ->
  exists ms : list CircleMarker,
    run h (createEarthquakeFeatures g fs) = Some ms /\
    Forall2 (fun f m =>
               coordinates (geometry f) !! 1%nat = Some (lat (latLong m)) /\
               coordinates (geometry f) !! 0%nat = Some (lng (latLong m)) /\
               color m = hexf (depthOf f) /\
               fillColor m = hexf (depthOf f) /\
               radius m = radialMagnitude (mag (properties f)) /\
               popup m = Some (place (properties f) ++ "<hr>" ++ nl
                               ++ blanks 20 ++ "Magnitude: "
                               ++ numf (mag (properties f)) ++ "<hr>" ++ nl
                               ++ blanks 20 ++ datef (time (properties f))
                               ++ " UTC")%string)
            fs ms.
Proof. apply run_overlay. Qed.

Lemma overlay_markers_witness :
  exists ms : list CircleMarker,
    run (Sample.host Sample.feed Sample.limits)
        (createEarthquakeFeatures (globalsAfter Sample.limits) (features Sample.feed))
    = Some ms /\
    Forall2 (fun f m =>
               coordinates (geometry f) !! 1%nat = Some (lat (latLong m)) /\
               coordinates (geometry f) !! 0%nat = Some (lng (latLong m)) /\
               color m = Sample.hex (globalsAfter_scale Sample.limits) (depthOf f) /\
               fillColor m = Sample.hex (globalsAfter_scale Sample.limits) (depthOf f) /\
               radius m = radialMagnitude (mag (properties f)) /\
               popup m = Some (place (properties f) ++ "<hr>" ++ nl
                               ++ blanks 20 ++ "Magnitude: "
                               ++ Sample.fixed2 (mag (properties f)) ++ "<hr>" ++ nl
                               ++ blanks 20 ++ "Jan 1, 2024, 12:00 AM"
                               ++ " UTC")%string)
            (features Sample.feed) ms.
Proof.
  apply (overlay_markers (Sample.host Sample.feed Sample.limits)
           (globalsAfter Sample.limits) (globalsAfter_scale Sample.limits)
           (features Sample.feed)
           (Sample.hex (globalsAfter_scale Sample.limits)) Sample.fixed2
           (fun _ => "Jan 1, 2024, 12:00 AM"%string)).
  - reflexivity.
  - intros v. reflexivity.
  - intros v. reflexivity.
  - intros t. reflexivity.
  - repeat constructor.
Defined.

(** X12: no partial overlay: if the scale fails for one feature of the
    feed, wherever it stands, no overlay is produced at all. *)
Theorem overlay_aborts (h : Host) (g : Globals) (s : Scale) (fs : list Feature)
    (feature : Feature) :
  chromaScale g = Some s ->
  feature ∈ fs ->
  h string (scale_hex s (depthOf feature)) = None ->
  run h (createEarthquakeFeatures g fs) = None.
Proof.
  intros Hs Hin Hc. by apply (run_overlay_no_color h g s Hs fs feature).
Qed.

Lemma overlay_aborts_witness :
  run (Outage.librariesDown Sample.feed)
      (createEarthquakeFeatures (globalsAfter Sample.limits) (features Sample.feed))
  = None.
Proof.
  apply (overlay_aborts (Outage.librariesDown Sample.feed) (globalsAfter Sample.limits)
           (globalsAfter_scale Sample.limits) (features Sample.feed) Sample.shallow).
  - reflexivity.
  - apply list_elem_of_In. simpl. right. right. left. reflexivity.
  - reflexivity.
Defined.

Lemma run_overlay_inv (h : Host) (g : Globals) (fs : list Feature) :
  forall ms : list CircleMarker,
    run h (createEarthquakeFeatures g fs) = Some ms ->
    length ms = length fs /\
    Forall (fun m => stroke m = false /\ fillOpacity m == 0.8 /\ 2 <= radius m /\
                     color m = fillColor m /\ is_Some (popup m)) ms.
Proof.
  unfold createEarthquakeFeatures.
  induction fs as [|f fs IH]; intros ms.
  - intros [= <-]. split; [reflexivity|constructor].
  - cbn [mapM]. rewrite run_bind.
    destruct (run h (coordsToLatLng (coordinates (geometry f)) ≫= _)) as [m|] eqn:Hm;
      [|discriminate].
    cbn [mbind option_bind]. rewrite run_bind.
    destruct (run h (mapM _ fs)) as [ms'|] eqn:Hms; [|discriminate].
    cbn [mbind option_bind run mret Prog_ret]. intros [= <-].
    destruct (IH ms' eq_refl) as [Hlen Hall]. split.
    + cbn [length]. by rewrite Hlen.
    + constructor; [|exact Hall]. by apply (run_feature_inv h g f).
Qed.

(** X13: whenever the overlay is produced it has as many markers as the
    feed has features, and every marker in it has no stroke, fill opacity
    0.8, a radius of at least 2, the same stroke and fill colour, and a
    popup. *)
Theorem overlay_invariant (h : Host) (g : Globals) (fs : list Feature)
    (ms : list CircleMarker) :
  run h (createEarthquakeFeatures g fs) = Some ms ->
  length ms = length fs /\
  Forall (fun m => stroke m = false /\ fillOpacity m == 0.8 /\ 2 <= radius m /\
                   color m = fillColor m /\ is_Some (popup m)) ms.
Proof. apply run_overlay_inv. Qed.

Lemma overlay_invariant_witness :
  exists ms : list CircleMarker,
    run (Sample.host Sample.feed Sample.limits)
        (createEarthquakeFeatures (globalsAfter Sample.limits) (features Sample.feed))
    = Some ms /\
    length ms = 3%nat /\
    Forall (fun m => stroke m = false /\ fillOpacity m == 0.8 /\ 2 <= radius m /\
                     color m = fillColor m /\ is_Some (popup m)) ms.
Proof.
  eexists. split; [vm_compute; reflexivity|].
  apply (overlay_invariant (Sample.host Sample.feed Sample.limits)
           (globalsAfter Sample.limits) (features Sample.feed)).
  vm_compute. reflexivity.
Defined.

(** ** The pipeline, stage by stage *)

Lemma trace_init_fetch (h : Host) (g : Globals) :
  h FeatureCollection (d3_json url) = None ->
  trace h (init g) = [Called (d3_json url)].
Proof.
  intros H. unfold init. rewrite trace_bind, trace_call, run_call, H. reflexivity.
Qed.

(** X14: when the fetch is rejected, [init] fails and the fetch of the
    weekly feed is the only call it has made: no scale, no marker, no
    legend. *)
Theorem init_fetch_fails (h : Host) (g : Globals) :
  h FeatureCollection
    (d3_json "https://earthquake.usgs.gov/earthquakes/feed/v1.0/summary/all_week.geojson")
  = None ->
  run h (init g) = None /\
  trace h (init g)
  = [Called (d3_json
               "https://earthquake.usgs.gov/earthquakes/feed/v1.0/summary/all_week.geojson")].
Proof.
  intros H. split.
  - rewrite run_init. fold url in H. by rewrite H.
  - by apply trace_init_fetch.
Qed.

Lemma init_fetch_fails_witness :
  run Outage.offline (init undefinedGlobals) = None /\
  trace Outage.offline (init undefinedGlobals)
  = [Called (d3_json
               "https://earthquake.usgs.gov/earthquakes/feed/v1.0/summary/all_week.geojson")].
Proof.
  apply (init_fetch_fails Outage.offline undefinedGlobals). reflexivity.
Defined.

(** X15: when [chroma.limits] throws, [init] fails after exactly three
    calls, the fetch, the console line with the number of features and
    [chroma.limits] itself: no marker is coloured and no legend built. *)
Theorem init_limits_fail (h : Host) (g : Globals) (feed : FeatureCollection) :
  h FeatureCollection (d3_json url) = Some feed ->
  h unit (console_log "Total Earthquakes" (length (features feed))) = Some tt ->
  h (list JsNumber) (chroma_limits (getDepths (features feed)) "l" 5) = None ->
  run h (init g) = None /\
  trace h (init g)
  = [Called (d3_json url);
     Called (console_log "Total Earthquakes" (length (features feed)));
     Called (chroma_limits (getDepths (features feed)) "l" 5)].
Proof.
  intros Hfeed Hlog Hlim. rewrite <- (getDepths_length (features feed)) in Hlog |- *.
  split.
  - rewrite run_init, Hfeed. cbn [mbind option_bind]. rewrite Hlog.
    cbn [mbind option_bind]. by rewrite Hlim.
  - unfold init. rewrite trace_bind, trace_call, run_call, Hfeed.
    rewrite trace_bind, trace_call, run_call, Hlog.
    rewrite trace_bind, trace_call, run_call.
    change (Z.of_nat (length gradientColors) - 1)%Z with 5%Z.
    rewrite Hlim. reflexivity.
Qed.

Lemma init_limits_fail_witness :
  run (Outage.librariesDown Sample.feed) (init undefinedGlobals) = None /\
  trace (Outage.librariesDown Sample.feed) (init undefinedGlobals)
  = [Called (d3_json url);
     Called (console_log "Total Earthquakes" 3);
     Called (chroma_limits [100; 0.01; 0.005] "l" 5)].
Proof.
  apply (init_limits_fail (Outage.librariesDown Sample.feed) undefinedGlobals Sample.feed);
    reflexivity.
Defined.

(** X16: whatever the feed, [init] calls [chroma.limits] exactly once in a
    run, over the depths [getDepths] extracts from the feed, in mode "l",
    for one class fewer than the palette has colours, that is 5; building
    the overlay, the map and the legend never calls it again. *)
Theorem init_builds_scale_once (h : Host) (g : Globals) (feed : FeatureCollection) :
  h FeatureCollection (d3_json url) = Some feed ->
  h unit (console_log "Total Earthquakes" (length (features feed))) = Some tt ->
  limitsCalls (trace h (init g))
  = [(getDepths (features feed), "l"%string, (Z.of_nat (length gradientColors) - 1)%Z)] /\
  (Z.of_nat (length gradientColors) - 1 = 5)%Z.
Proof.
  intros Hfeed Hlog. rewrite <- (getDepths_length (features feed)) in Hlog.
  split; [|reflexivity]. by apply limitsCalls_init.
Qed.

Lemma init_builds_scale_once_witness :
  limitsCalls (trace (Sample.host Sample.feed Sample.limits) (init undefinedGlobals))
  = [([100; 0.01; 0.005], "l"%string, 5%Z)] /\
  (Z.of_nat (length gradientColors) - 1 = 5)%Z.
Proof.
  apply (init_builds_scale_once (Sample.host Sample.feed Sample.limits) undefinedGlobals
           Sample.feed); reflexivity.
Defined.

(** X17: whenever [init] completes, [colorDomain] holds the boundaries
    [chroma.limits] answered for the depths of the fetched feed,
    [chromaScale] is the scale over the palette and those same boundaries,
    the overlay has one marker per feature, and the overlay listed in the
    layer control under "Earthquakes" is the one shown on the map over the
    grey base layer. *)
Theorem init_leaves_scale (h : Host) (g : Globals) (map : LeafletMap) (g1 : Globals) :
  run h (init g) = Some (map, g1) ->
  exists (feed : FeatureCollection) (limits : list JsNumber),
    h FeatureCollection (d3_json url) = Some feed /\
    h (list JsNumber) (chroma_limits (getDepths (features feed)) "l" 5) = Some limits /\
    colorDomain g1 = Some limits /\
    chromaScale g1 = Some {| scaleColors := gradientColors; scaleDomain := limits |} /\
    length (snd (layers map)) = length (features feed) /\
    overlayMaps (layersControl map) = [("Earthquakes"%string, snd (layers map))] /\
    fst (layers map) = esriGray.
Proof.
  intros Hrun.
  destruct (completed_run h g map g1 Hrun)
    as (feed & limits & ms & Hfeed & _ & Hlim & Hms & Hmap & _ & ->).
  destruct (run_createMap_inv h _ ms map _ Hmap) as (_ & _ & Hlayers & Hoverlay & _).
  exists feed, limits. rewrite Hlayers, Hoverlay. cbn [fst snd].
  split; [exact Hfeed|]. split; [exact Hlim|]. split; [reflexivity|].
  split; [reflexivity|]. split; [by apply (run_overlay_inv h _ _ ms Hms)|].
  split; reflexivity.
Qed.

Lemma init_leaves_scale_witness :
  exists (map : LeafletMap) (g1 : Globals),
    run (Sample.host Sample.feed Sample.limits) (init undefinedGlobals) = Some (map, g1) /\
    colorDomain g1 = Some Sample.limits /\
    chromaScale g1 = Some {| scaleColors := gradientColors; scaleDomain := Sample.limits |} /\
    length (snd (layers map)) = 3%nat.
Proof.
  eexists. eexists. split; [vm_compute; reflexivity|].
  destruct (init_leaves_scale (Sample.host Sample.feed Sample.limits) undefinedGlobals
              _ _ eq_refl)
    as (feed & limits & Hfeed & Hlimits & Hdomain & Hscale & Hlen & _).
  injection Hfeed as <-. injection Hlimits as <-.
  split; [exact Hdomain|]. split; [exact Hscale|exact Hlen].
Defined.

(** X18: the whole run.  When the page's map container is free, the feed
    arrives, every feature carries a longitude and a latitude, and the
    console, chroma.js and the formatters answer, [init] completes: the map
    shows one marker per feature in feed order, each placed, coloured (by
    the scale over the palette and the boundaries just computed), sized and
    labelled from its own feature, and the legend displays the title, the
    gradient bar and one item per boundary, the first reading "0.01 +" and
    the others as the formatter prints them. *)
Theorem init_renders (h : Host) (g : Globals) (feed : FeatureCollection)
    (limits : list JsNumber) (hexf : option Q -> string) (numf : Q -> string)
    (datef : Z -> string) (fmt : JsNumber -> string) :
  mapContainer g = Empty ->
  h FeatureCollection (d3_json url) = Some feed ->
  h unit (console_log "Total Earthquakes" (length (features feed))) = Some tt ->
  h (list JsNumber) (chroma_limits (getDepths (features feed)) "l" 5) = Some limits ->
  (forall v : option Q,
      h string (scale_hex {| scaleColors := gradientColors; scaleDomain := limits |} v)
      = Some (hexf v)) ->
  (forall v : Q, h string (number_toString v) = Some (numf v)) ->
  (forall t : Z, h string (dateFormat_format "en-us" popupDateFormat t) = Some (datef t)) ->
  (forall v : JsNumber, h string (toLocaleString v twoFractionDigits) = Some (fmt v)) ->
  Forall (fun f => (2 <= length (coordinates (geometry f)))%nat) (features feed) ->
  exists map : LeafletMap,
    run h (init g) = Some (map, globalsAfter limits) /\
    Forall2 (fun f m =>
               coordinates (geometry f) !! 1%nat = Some (lat (latLong m)) /\
               coordinates (geometry f) !! 0%nat = Some (lng (latLong m)) /\
               color m = hexf (depthOf f) /\
               fillColor m = hexf (depthOf f) /\
               radius m = radialMagnitude (mag (properties f)) /\
               popup m = Some (place (properties f) ++ "<hr>" ++ nl
                               ++ blanks 20 ++ "Magnitude: "
                               ++ numf (mag (properties f)) ++ "<hr>" ++ nl
                               ++ blanks 20 ++ datef (time (properties f))
                               ++ " UTC")%string)
            (features feed) (snd (layers map)) /\
    innerHTML (legend map)
    = ("<h3 class=" ++ dq ++ "legend_title" ++ dq ++ ">Depth (km)</h3>" ++ nl
       ++ blanks 24 ++ "<div class=" ++ dq ++ "data_container" ++ dq ++ ">" ++ nl
       ++ blanks 28 ++ "<div class=" ++ dq ++ "gradient" ++ dq ++ " style=" ++ dq
       ++ "background: linear-gradient(#9AFF9A, #5AFF5A, #28C428, #FF7878, #FF3232, #FF0000)"
       ++ dq ++ "></div>" ++ nl
       ++ blanks 28 ++ "<div class=" ++ dq ++ "gradient_values" ++ dq ++ ">" ++ nl
       ++ blanks 32 ++ "<ul>" ++ nl
       ++ blanks 36
       ++ String.concat EmptyString
            match limits with
             | [] => []
             | _ :: others =>
                 "<li>0.01 +</li>"%string
                 :: List.map (fun v => "<li>" ++ fmt v ++ "</li>")%string others
             end
       ++ nl
       ++ blanks 32 ++ "</ul>" ++ nl
       ++ blanks 28 ++ "</div>" ++ nl
       ++ blanks 24 ++ "</div>")%string.
Proof.
  intros Hc Hfeed Hlog Hlim Hhex Hn Hd Hf Hwf.
  rewrite <- (getDepths_length (features feed)) in Hlog.
  destruct (run_overlay h (globalsWith limits Empty) _ (features feed) hexf numf datef
              eq_refl Hhex Hn Hd Hwf) as (ms & Hms & Hall).
  destruct (run_createMap h (globalsWith limits Empty) limits fmt ms Hf eq_refl eq_refl)
    as (map & Hrun & Hlayers & _ & Hlegend).
  exists map. split.
  - rewrite run_init, Hfeed. cbn [mbind option_bind]. rewrite Hlog.
    cbn [mbind option_bind]. rewrite Hlim. cbn [mbind option_bind].
    rewrite Hc, Hms. exact Hrun.
  - rewrite Hlayers, Hlegend. split; [exact Hall|]. cbn [innerHTML].
    apply legendHTML_text.
Qed.

Lemma init_renders_witness :
  exists map : LeafletMap,
    run (Sample.host Sample.feed Sample.limits) (init undefinedGlobals)
    = Some (map, globalsAfter Sample.limits) /\
    Forall2 (fun f m =>
               coordinates (geometry f) !! 1%nat = Some (lat (latLong m)) /\
               coordinates (geometry f) !! 0%nat = Some (lng (latLong m)) /\
               color m = Sample.hex (globalsAfter_scale Sample.limits) (depthOf f) /\
               fillColor m = Sample.hex (globalsAfter_scale Sample.limits) (depthOf f) /\
               radius m = radialMagnitude (mag (properties f)) /\
               popup m = Some (place (properties f) ++ "<hr>" ++ nl
                               ++ blanks 20 ++ "Magnitude: "
                               ++ Sample.fixed2 (mag (properties f)) ++ "<hr>" ++ nl
                               ++ blanks 20 ++ "Jan 1, 2024, 12:00 AM"
                               ++ " UTC")%string)
            (features Sample.feed) (snd (layers map)) /\
    innerHTML (legend map)
    = ("<h3 class=" ++ dq ++ "legend_title" ++ dq ++ ">Depth (km)</h3>" ++ nl
       ++ blanks 24 ++ "<div class=" ++ dq ++ "data_container" ++ dq ++ ">" ++ nl
       ++ blanks 28 ++ "<div class=" ++ dq ++ "gradient" ++ dq ++ " style=" ++ dq
       ++ "background: linear-gradient(#9AFF9A, #5AFF5A, #28C428, #FF7878, #FF3232, #FF0000)"
       ++ dq ++ "></div>" ++ nl
       ++ blanks 28 ++ "<div class=" ++ dq ++ "gradient_values" ++ dq ++ ">" ++ nl
       ++ blanks 32 ++ "<ul>" ++ nl
       ++ blanks 36
       ++ String.concat EmptyString
            ["<li>0.01 +</li>"; "<li>0.04</li>"; "<li>0.30</li>"; "<li>2.00</li>";
             "<li>14.00</li>"; "<li>100.00</li>"]%string
       ++ nl
       ++ blanks 32 ++ "</ul>" ++ nl
       ++ blanks 28 ++ "</div>" ++ nl
       ++ blanks 24 ++ "</div>")%string.
Proof.
  apply (init_renders (Sample.host Sample.feed Sample.limits) undefinedGlobals
           Sample.feed Sample.limits
           (Sample.hex (globalsAfter_scale Sample.limits)) Sample.fixed2
           (fun _ => "Jan 1, 2024, 12:00 AM"%string) Sample.format).
  - reflexivity.
  - reflexivity.
  - reflexivity.
  - reflexivity.
  - intros v. reflexivity.
  - intros v. reflexivity.
  - intros t. reflexivity.
  - intros v. reflexivity.
  - repeat constructor.
Defined.

(** X19: a feature whose coordinates stop before a depth is counted as
    0.01 by [getDepths], while [_pointToLayer] hands [undefined] to the
    colour scale for it. *)
Theorem missing_depth (h : Host) (g : Globals) (s : Scale) (feature : Feature)
    (ll : LatLng) :
  chromaScale g = Some s ->
  (length (coordinates (geometry feature)) <= 2)%nat ->
  getDepths [feature] = [0.01] /\
  scaleArgs (trace h (_pointToLayer g feature ll)) <> [] /\
  Forall (fun v => v = None) (scaleArgs (trace h (_pointToLayer g feature ll))).
Proof.
  intros Hs Hlen.
  assert (Hd : depthOf feature = None) by (by apply lookup_ge_None_2).
  rewrite (scaleArgs_pointToLayer h g s Hs), Hd. split.
  - unfold getDepths. simpl. by rewrite Hd.
  - destruct (h string _); split; try discriminate; repeat constructor.
Qed.

Lemma missing_depth_witness :
  getDepths [ {| geometry := {| coordinates := [-120; 36] |};
                 properties := {| mag := 2; place := "Ridge"; time := 0 |} |} ] = [0.01] /\
  scaleArgs (trace (Sample.host Sample.feed Sample.limits)
               (_pointToLayer (globalsAfter Sample.limits)
                  {| geometry := {| coordinates := [-120; 36] |};
                     properties := {| mag := 2; place := "Ridge"; time := 0 |} |}
                  {| lat := 36; lng := -120; alt := None |})) <> [] /\
  Forall (fun v => v = None)
    (scaleArgs (trace (Sample.host Sample.feed Sample.limits)
                  (_pointToLayer (globalsAfter Sample.limits)
                     {| geometry := {| coordinates := [-120; 36] |};
                        properties := {| mag := 2; place := "Ridge"; time := 0 |} |}
                     {| lat := 36; lng := -120; alt := None |}))).
Proof.
  apply (missing_depth (Sample.host Sample.feed Sample.limits) (globalsAfter Sample.limits)
           (globalsAfter_scale Sample.limits)).
  - reflexivity.
  - apply le_n.
Defined.
